(** * Shallow embedding of importer/v8/importer.go

    The importer reads a line-oriented 0.8 dump, extracts the
    create-database statement (processDDL), then routes context
    directives and data lines (processDML) into a batch that is
    written through a rate throttle (batchAccumulator, batchWrite).

    Modelling choices:
    - Go strings are byte strings: [string] of [ascii].
    - Go [int] counters are [Z]; they count lines of one run and stay far
      below 2^63, so wrap-around is not written out.
    - The clock is an oracle [Clock : nat -> Z] (nanoseconds); the k-th call
      of [time.Now]/[time.Since] in the run reads [Clock k].
      [time.Since(t)] is [Clock k - t].
    - [float64(n) / since.Seconds()] truncated by [int(...)] is modelled
      as the exact quotient [n * 10^9 / since] truncated toward zero
      (floating point rounding is not modelled).
    - The transport is an oracle: the n-th [WriteLineProtocol] call fails
      with error [e] iff [WriteResult n = Some e]; a query of command [c]
      on database [d] fails with [e] iff [QueryResult c d = Some e].
    - The scanner is the list of lines it yields; a read error that stops
      it is the [scanErr] of the environment.
    - Effects (queries, writes, ticker waits, lines printed to stdout, log
      lines) are recorded in a trace, in program order.
    - [batchWrite] recurses without bound while throttled; it takes a fuel
      argument and yields [OutOfFuel] when the fuel runs out. A Go
      index-out-of-range panic is [Panic]. *)

From Stdlib Require Import ZArith String Ascii List Bool Lia.
Import ListNotations.
Open Scope string_scope.
Open Scope Z_scope.
Open Scope list_scope.

(** ** Go library functions on strings *)

(** [strings.HasPrefix s prefix] *)
Definition HasPrefix (s pfx : string) : bool := String.prefix pfx s.

(** ASCII white space as recognised by [unicode.IsSpace] / Go's
    [asciiSpace] table: '\t', '\n', '\v', '\f', '\r', ' '.
    (Unicode spaces outside ASCII are not modelled.) *)
Definition isSpace (c : ascii) : bool :=
  match nat_of_ascii c with
  | 9%nat | 10%nat | 11%nat | 12%nat | 13%nat | 32%nat => true
  | _ => false
  end.

Fixpoint dropSpaces (l : list ascii) : list ascii :=
  match l with
  | [] => []
  | c :: r => if isSpace c then dropSpaces r else l
  end.

(** [strings.TrimSpace] *)
Definition TrimSpace (s : string) : string :=
  string_of_list_ascii
    (rev (dropSpaces (rev (dropSpaces (list_ascii_of_string s))))).

(** [strings.Split s sep] for a non-empty [sep] (the source only splits on
    ":"): the pieces between the leftmost non-overlapping occurrences of
    [sep]. [cur] is the piece read so far; [fuel] bounds the recursion by
    the length of [s]. *)
Fixpoint splitAux (fuel : nat) (sep s cur : string) : list string :=
  match fuel with
  | O => [String.append cur s]
  | S f =>
    match s with
    | EmptyString => [cur]
    | String c r =>
      if String.prefix sep s
      then cur :: splitAux f sep (substring (String.length sep)
                                            (String.length s) s) ""
      else splitAux f sep r (String.append cur (String c EmptyString))
    end
  end.

Definition Split (s sep : string) : list string :=
  splitAux (S (String.length s)) sep s "".

(** [strings.Join elems sep] *)
Definition Join (elems : list string) (sep : string) : string :=
  String.concat sep elems.

(** Decimal rendering of a non-negative integer, as [fmt]'s [%d]. *)
Fixpoint digits (fuel : nat) (n : Z) (acc : string) : string :=
  match fuel with
  | O => acc
  | S f =>
    let acc := String (ascii_of_nat (48 + Z.to_nat (Z.rem n 10))) acc in
    if Z.quot n 10 =? 0 then acc else digits f (Z.quot n 10) acc
  end.

(** [fmt.Sprintf("%d", n)] *)
Definition itoa (n : Z) : string :=
  let d := digits (S (Z.to_nat (Z.log2 (Z.abs n)))) (Z.abs n) "" in
  if n <? 0 then String.append "-" d else d.

(** ** Data model *)

Definition batchSize : Z := 5000.

Record Config := mkConfig {
  Path : string;
  Compressed : bool;
  PPS : Z;
  DestinationDatabase : string;
  RetentionPolicy : string;
  Precision : string;
  WriteConsistency : string
}.

(** Observable effects of a run, in program order. *)
Inductive event :=
| EvQuery (command database : string)          (* client.Query *)
| EvQueryError (msg : string)                  (* log.Printf("error: %s") *)
| EvWrite (body database rp precision consistency : string)
                                               (* client.WriteLineProtocol *)
| EvWriteError (msg : string)                  (* log.Println("error writing batch: ", e) *)
| EvStdout (text : string)                     (* fmt.Println of failed lines *)
| EvTick                                       (* <-i.throttle.C *)
| EvStatus (processed elapsed : Z)             (* status log every 100000 lines *)
| EvSummary (commands inserts failed : Z).     (* deferred summary log *)

(** The [Importer] struct, together with the position of the clock and
    transport oracles and the trace of effects. The slice [batch] is its
    elements and its capacity. *)
Record Importer := mkImporter {
  database : string;
  retentionPolicy : string;
  config : Config;
  batch : list string;
  batchCap : Z;
  totalInserts : Z;
  failedInserts : Z;
  totalCommands : Z;
  throttlePointsWritten : Z;
  lastWrite : Z;
  createDatabaseQuery : string;
  clk : nat;
  nwrites : nat;
  trace : list event
}.

Definition set_database (v : string) (i : Importer) : Importer :=
  {| database := v; retentionPolicy := retentionPolicy i; config := config i;
     batch := batch i; batchCap := batchCap i; totalInserts := totalInserts i;
     failedInserts := failedInserts i; totalCommands := totalCommands i;
     throttlePointsWritten := throttlePointsWritten i; lastWrite := lastWrite i;
     createDatabaseQuery := createDatabaseQuery i; clk := clk i;
     nwrites := nwrites i; trace := trace i |}.

Definition set_retentionPolicy (v : string) (i : Importer) : Importer :=
  {| database := database i; retentionPolicy := v; config := config i;
     batch := batch i; batchCap := batchCap i; totalInserts := totalInserts i;
     failedInserts := failedInserts i; totalCommands := totalCommands i;
     throttlePointsWritten := throttlePointsWritten i; lastWrite := lastWrite i;
     createDatabaseQuery := createDatabaseQuery i; clk := clk i;
     nwrites := nwrites i; trace := trace i |}.

(** the slice header: elements and capacity *)
Definition set_batch (v : list string) (cap : Z) (i : Importer) : Importer :=
  {| database := database i; retentionPolicy := retentionPolicy i; config := config i;
     batch := v; batchCap := cap; totalInserts := totalInserts i;
     failedInserts := failedInserts i; totalCommands := totalCommands i;
     throttlePointsWritten := throttlePointsWritten i; lastWrite := lastWrite i;
     createDatabaseQuery := createDatabaseQuery i; clk := clk i;
     nwrites := nwrites i; trace := trace i |}.

Definition set_counters (total failed commands : Z) (i : Importer) : Importer :=
  {| database := database i; retentionPolicy := retentionPolicy i; config := config i;
     batch := batch i; batchCap := batchCap i; totalInserts := total;
     failedInserts := failed; totalCommands := commands;
     throttlePointsWritten := throttlePointsWritten i; lastWrite := lastWrite i;
     createDatabaseQuery := createDatabaseQuery i; clk := clk i;
     nwrites := nwrites i; trace := trace i |}.

Definition set_throttlePointsWritten (v : Z) (i : Importer) : Importer :=
  {| database := database i; retentionPolicy := retentionPolicy i; config := config i;
     batch := batch i; batchCap := batchCap i; totalInserts := totalInserts i;
     failedInserts := failedInserts i; totalCommands := totalCommands i;
     throttlePointsWritten := v; lastWrite := lastWrite i;
     createDatabaseQuery := createDatabaseQuery i; clk := clk i;
     nwrites := nwrites i; trace := trace i |}.

Definition set_lastWrite (v : Z) (i : Importer) : Importer :=
  {| database := database i; retentionPolicy := retentionPolicy i; config := config i;
     batch := batch i; batchCap := batchCap i; totalInserts := totalInserts i;
     failedInserts := failedInserts i; totalCommands := totalCommands i;
     throttlePointsWritten := throttlePointsWritten i; lastWrite := v;
     createDatabaseQuery := createDatabaseQuery i; clk := clk i;
     nwrites := nwrites i; trace := trace i |}.

Definition set_createDatabaseQuery (v : string) (i : Importer) : Importer :=
  {| database := database i; retentionPolicy := retentionPolicy i; config := config i;
     batch := batch i; batchCap := batchCap i; totalInserts := totalInserts i;
     failedInserts := failedInserts i; totalCommands := totalCommands i;
     throttlePointsWritten := throttlePointsWritten i; lastWrite := lastWrite i;
     createDatabaseQuery := v; clk := clk i;
     nwrites := nwrites i; trace := trace i |}.

Definition set_clk (v : nat) (i : Importer) : Importer :=
  {| database := database i; retentionPolicy := retentionPolicy i; config := config i;
     batch := batch i; batchCap := batchCap i; totalInserts := totalInserts i;
     failedInserts := failedInserts i; totalCommands := totalCommands i;
     throttlePointsWritten := throttlePointsWritten i; lastWrite := lastWrite i;
     createDatabaseQuery := createDatabaseQuery i; clk := v;
     nwrites := nwrites i; trace := trace i |}.

Definition set_nwrites (v : nat) (i : Importer) : Importer :=
  {| database := database i; retentionPolicy := retentionPolicy i; config := config i;
     batch := batch i; batchCap := batchCap i; totalInserts := totalInserts i;
     failedInserts := failedInserts i; totalCommands := totalCommands i;
     throttlePointsWritten := throttlePointsWritten i; lastWrite := lastWrite i;
     createDatabaseQuery := createDatabaseQuery i; clk := clk i;
     nwrites := v; trace := trace i |}.

(** append an effect to the trace *)
Definition emit (e : event) (i : Importer) : Importer :=
  {| database := database i; retentionPolicy := retentionPolicy i; config := config i;
     batch := batch i; batchCap := batchCap i; totalInserts := totalInserts i;
     failedInserts := failedInserts i; totalCommands := totalCommands i;
     throttlePointsWritten := throttlePointsWritten i; lastWrite := lastWrite i;
     createDatabaseQuery := createDatabaseQuery i; clk := clk i;
     nwrites := nwrites i; trace := trace i ++ [e] |}.

(** [NewImporter(config)]: [batch: make([]string, 0, batchSize)], every
    other field at its zero value. *)
Definition NewImporter (cfg : Config) : Importer :=
  {| database := ""; retentionPolicy := ""; config := cfg;
     batch := []; batchCap := batchSize; totalInserts := 0;
     failedInserts := 0; totalCommands := 0;
     throttlePointsWritten := 0; lastWrite := 0;
     createDatabaseQuery := ""; clk := 0; nwrites := 0; trace := [] |}.

(** Go's [append(s, x)] on a slice header: within capacity the capacity is
    kept; beyond it the runtime allocates a larger array (its exact growth
    rule is simplified here to doubling; the importer never appends to a
    full batch). *)
Definition append_line (line : string) (i : Importer) : Importer :=
  let n := Z.of_nat (length (batch i)) in
  let cap := if n + 1 <=? batchCap i then batchCap i
             else Z.max (2 * batchCap i) (n + 1) in
  set_batch (batch i ++ [line]) cap i.

(** Outcome of a computation: a result, fuel exhausted by the unbounded
    throttle retry, or a Go runtime panic. *)
Inductive outcome (A : Type) :=
| Done (a : A)
| OutOfFuel
| Panic (msg : string).
Arguments Done {A} a.
Arguments OutOfFuel {A}.
Arguments Panic {A} msg.

Definition bind {A B} (m : outcome A) (k : A -> outcome B) : outcome B :=
  match m with
  | Done a => k a
  | OutOfFuel => OutOfFuel
  | Panic msg => Panic msg
  end.

Notation "'let*' x := m 'in' k" := (bind m (fun x => k))
  (at level 200, x name, m at level 100, k at level 200).

(** Go's [xs[1]] *)
Definition index1 (xs : list string) : outcome string :=
  match nth_error xs 1 with
  | Some v => Done v
  | None => Panic "runtime error: index out of range"
  end.

(** ** processDDL

    Scans up to the first line with prefix "# DML" (consumed); comment
    and blank lines are skipped; every other line overwrites
    [createDatabaseQuery]. Returns the captured query and the lines left to
    the scanner. *)
Fixpoint processDDL (lines : list string) (q : string) : string * list string :=
  match lines with
  | [] => (q, [])
  | line :: rest =>
    if HasPrefix line "# DML" then (q, rest)
    else if HasPrefix line "#" then processDDL rest q
    else if String.eqb (TrimSpace line) "" then processDDL rest q
    else processDDL rest line
  end.

Section Run.

Variable Clock : nat -> Z.
Variable WriteResult : nat -> option string.
Variable QueryResult : string -> string -> option string.

(** [time.Now()] *)
Definition now (i : Importer) : Z * Importer :=
  (Clock (clk i), set_clk (S (clk i)) i).

(** [currentPPS] as computed in [batchWrite] from the accumulated count and
    the elapsed nanoseconds [since]. *)
Definition currentPPS (points since : Z) : Z :=
  if 0 <? since then Z.quot (points * 1000000000) since else points.

Fixpoint batchWrite (fuel : nat) (i : Importer) : outcome Importer :=
  match fuel with
  | O => OutOfFuel
  | S fuel' =>
    let n := Z.of_nat (length (batch i)) in
    let i := set_throttlePointsWritten (throttlePointsWritten i + n) i in
    let '(t, i) := now i in
    let since := t - lastWrite i in
    let pps := currentPPS (throttlePointsWritten i) since in
    if (PPS (config i) <? pps) && negb (PPS (config i) =? 0) then
      let i := emit EvTick i in
      let i := set_throttlePointsWritten (throttlePointsWritten i - n) i in
      batchWrite fuel' i
    else
      let body := Join (batch i) "
" in
      let e := WriteResult (nwrites i) in
      let i := emit (EvWrite body (database i) (retentionPolicy i)
                             (Precision (config i)) (WriteConsistency (config i)))
                    (set_nwrites (S (nwrites i)) i) in
      let i := match e with
               | Some msg =>
                 let i := emit (EvStdout body) (emit (EvWriteError msg) i) in
                 set_counters (totalInserts i) (failedInserts i + n) (totalCommands i) i
               | None =>
                 set_counters (totalInserts i + n) (failedInserts i) (totalCommands i) i
               end in
      let i := set_throttlePointsWritten 0 i in
      let '(t', i) := now i in
      Done (set_lastWrite t' i)
  end.

Definition batchAccumulator (fuel : nat) (line : string) (start : Z)
  (i : Importer) : outcome Importer :=
  let i := append_line line i in
  if Z.of_nat (length (batch i)) =? batchSize then
    let* i := batchWrite fuel i in
    let i := set_batch [] (batchCap i) i in
    let processed := totalInserts i + failedInserts i in
    if Z.rem processed 100000 =? 0 then
      let '(t, i) := now i in
      Done (emit (EvStatus processed (t - start)) i)
    else Done i
  else Done i.

(** [strings.TrimSpace(strings.Split(line, ":")[1])] *)
Definition contextValue (line : string) : outcome string :=
  let* v := index1 (Split line ":") in Done (TrimSpace v).

(** One iteration of the scanning loop of [processDML]. *)
Definition dmlLine (fuel : nat) (dboverride rpoverride : string) (start : Z)
  (line : string) (i : Importer) : outcome Importer :=
  let* i := if String.eqb dboverride "" && HasPrefix line "# CONTEXT-DATABASE:"
            then let* v := contextValue line in Done (set_database v i)
            else Done i in
  let* i := if String.eqb rpoverride "" && HasPrefix line "# CONTEXT-RETENTION-POLICY:"
            then let* v := contextValue line in Done (set_retentionPolicy v i)
            else Done i in
  if HasPrefix line "#" then Done i
  else if String.eqb (TrimSpace line) "" then Done i
  else batchAccumulator fuel line start i.

Fixpoint dmlLoop (fuel : nat) (dboverride rpoverride : string) (start : Z)
  (lines : list string) (i : Importer) : outcome Importer :=
  match lines with
  | [] => Done i
  | line :: rest =>
    let* i := dmlLine fuel dboverride rpoverride start line i in
    dmlLoop fuel dboverride rpoverride start rest i
  end.

(** [execute] *)
Definition execute (command : string) (i : Importer) : Importer :=
  let i := emit (EvQuery command (database i)) i in
  match QueryResult command (database i) with
  | Some msg => emit (EvQueryError msg) i
  | None => i
  end.

(** [queryExecutor] *)
Definition queryExecutor (command : string) (i : Importer) : Importer :=
  execute command
    (set_counters (totalInserts i) (failedInserts i) (totalCommands i + 1) i).

Definition processDML (fuel : nat) (lines : list string)
  (dboverride rpoverride : string) (i : Importer) : outcome Importer :=
  let i := if negb (String.eqb dboverride "")
           then set_database dboverride
                  (set_createDatabaseQuery
                     (String.append "CREATE DATABASE " dboverride) i)
           else i in
  let i := queryExecutor (createDatabaseQuery i) i in
  let i := if negb (String.eqb rpoverride "")
           then set_retentionPolicy rpoverride i else i in
  let '(start, i) := now i in
  let* i := dmlLoop fuel dboverride rpoverride start lines i in
  batchWrite fuel i.

(** What the environment answers to the setup steps of [Import], and the
    lines the scanner yields together with the error that stopped it. *)
Record Env := mkEnv {
  clientErr : option string;   (* client.NewClient *)
  pingErr : option string;     (* i.client.Ping *)
  addr : string;               (* i.client.Addr() *)
  openErr : option string;     (* os.Open *)
  gzipErr : option string;     (* gzip.NewReader *)
  input : list string;         (* lines yielded by scanner.Scan *)
  scanErr : option string      (* scanner.Err() *)
}.

(** the deferred summary log *)
Definition summary (i : Importer) : Importer :=
  if 0 <? totalInserts i
  then emit (EvSummary (totalCommands i) (totalInserts i) (failedInserts i)) i
  else i.

(** [Import] after the deferred summary has been registered. *)
Definition importBody (fuel : nat) (env : Env) (i : Importer)
  : outcome (Importer * option string) :=
  match openErr env with
  | Some e => Done (i, Some e)
  | None =>
    match (if Compressed (config i) then gzipErr env else None) with
    | Some e => Done (i, Some e)
    | None =>
      let '(q, rest) := processDDL (input env) (createDatabaseQuery i) in
      let i := set_createDatabaseQuery q i in
      let '(t, i) := now i in
      let i := set_lastWrite t i in
      let* i := processDML fuel rest (DestinationDatabase (config i))
                           (RetentionPolicy (config i)) i in
      match scanErr env with
      | Some e => Done (i, Some (String.append "reading standard input: " e))
      | None =>
        if 0 <? failedInserts i then
          let plural := if 1 <? failedInserts i then "s were" else " was" in
          Done (i, Some (String.append (itoa (failedInserts i))
                          (String.append " point"
                             (String.append plural " not inserted"))))
        else Done (i, None)
      end
    end
  end.

(** [Import]: the final importer state and the returned error. *)
Definition Import (fuel : nat) (env : Env) (i : Importer)
  : outcome (Importer * option string) :=
  match clientErr env with
  | Some e => Done (i, Some (String.append "could not create client " e))
  | None =>
    match pingErr env with
    | Some _ => Done (i, Some (String.append "failed to connect to "
                                 (String.append (addr env) "
")))
    | None =>
      if String.eqb (Path (config i)) "" then Done (i, Some "file argument required")
      else
        let* r := importBody fuel env i in
        Done (summary (fst r), snd r)
    end
  end.

End Run.

(** Effects allowed in a run with database override [ov]: every write
    goes to [ov], every query is [CREATE DATABASE ov]. *)
Definition overrideEvent (ov : string) (e : event) : Prop :=
  match e with
  | EvWrite _ db _ _ _ => db = ov
  | EvQuery cmd _ => cmd = String.append "CREATE DATABASE " ov
  | _ => True
  end.

(** The setup steps of [Import] all succeed. *)
Definition setupOk (cfg : Config) (env : Env) : Prop :=
  clientErr env = None /\ pingErr env = None /\ Path cfg <> "" /\
  openErr env = None /\ (Compressed cfg = true -> gzipErr env = None).

(** Lines that are neither comment-prefixed nor blank. *)
Definition isDataLine (line : string) : bool :=
  negb (HasPrefix line "#") && negb (String.eqb (TrimSpace line) "").

Definition dataLines (lines : list string) : Z :=
  Z.of_nat (length (filter isDataLine lines)).

(** Concrete environment used by the examples. *)
Definition clock1s (k : nat) : Z := Z.of_nat k * 1000000000.
Definition writesOk (_ : nat) : option string := None.
Definition writesFail (_ : nat) : option string := Some "timeout".
Definition queriesOk (_ _ : string) : option string := None.

Definition cfg0 : Config :=
  mkConfig "dump.txt" false 0 "" "" "n" "any".

(** a limit of one point per second, and a batch of three lines *)
Definition cfg_pps1 : Config :=
  mkConfig "dump.txt" false 1 "" "" "n" "any".

Definition batch3 : Importer :=
  set_batch ["a"; "b"; "c"] batchSize (NewImporter cfg_pps1).

(** a batch one line short of [batchSize], without rate limit *)
Definition batch4999 : Importer :=
  set_batch (repeat "m v=1" 4999) batchSize (NewImporter cfg0).

(** [n] distinct data lines "m v=0", "m v=1", ... *)
Definition points (n : nat) : list string :=
  map (fun k => String.append "m v=" (itoa (Z.of_nat k))) (seq 0 n).

(** a dump whose phase 2 holds one full batch and one more line *)
Definition bigDump : list string := "# DML" :: points (Z.to_nat 5001).

(** the same run with destination-database override "bar" *)
Definition cfg_bar : Config :=
  mkConfig "dump.txt" false 0 "bar" "" "n" "any".

Definition env0 (lines : list string) : Env :=
  mkEnv None None "localhost:8086" None None lines None.

Definition sample : list string :=
  ["# DDL"; "CREATE DATABASE foo"; "# DML"; "# CONTEXT-DATABASE: foo";
   "m,t=1 v=1 0"].

(** Effects that follow a write, depending on the transport's answer. *)
Definition errEvents (r : option string) (body : string) : list event :=
  match r with
  | Some msg => [EvWriteError msg; EvStdout body]
  | None => []
  end.

(** The state a throttled attempt retries from: one clock read and one
    ticker wait later, accumulated count back at its value on entry. *)
Definition afterTick (i : Importer) : Importer :=
  emit EvTick (set_clk (S (clk i)) i).

(** Following the spec of phase 1: the last non-comment, non-blank line of
    [pre], or [q] when there is none. *)
Definition lastStatement (pre : list string) (q : string) : string :=
  last (filter isDataLine pre) q.

(** Lines seen so far: the counters plus the lines waiting in the batch. *)
Definition pending (i : Importer) : Z :=
  totalInserts i + failedInserts i + Z.of_nat (length (batch i)).

(** The batch holds fewer lines than [batchSize] in an array of capacity
    [batchSize]. *)
Definition batchInv (i : Importer) : Prop :=
  Z.of_nat (length (batch i)) < batchSize /\ batchCap i = batchSize.

(** Events a flush or a data line may add: neither a query nor the final
    summary. *)
Definition flushEvent (e : event) : bool :=
  match e with
  | EvQuery _ _ | EvSummary _ _ _ => false
  | _ => true
  end.

Definition isWrite (e : event) : bool :=
  match e with EvWrite _ _ _ _ _ => true | _ => false end.

(** The transport writes of a trace, in order. *)
Definition writesOf (tr : list event) : list event := filter isWrite tr.

Definition writeBody (e : event) : string :=
  match e with EvWrite b _ _ _ _ => b | _ => "" end.

Definition writeRp (e : event) : string :=
  match e with EvWrite _ _ rp _ _ => rp | _ => "" end.

(** What phase 2 does from [i] to [i'] having accepted the data lines [D]:
    the trace grows by flush effects only; the bodies written are the
    batches [done], each of [batchSize] lines, which with the batch left
    over hold the old batch followed by [D]; under a retention-policy
    override the policy stays and every write uses it. *)
Definition phase2Step (rpo : string) (i i' : Importer) (D : list string) : Prop :=
  exists (done : list (list string)) (ext : list event),
    trace i' = trace i ++ ext /\
    Forall (fun e => flushEvent e = true) ext /\
    map writeBody (writesOf ext) = map (fun b => Join b "
") done /\
    concat done ++ batch i' = batch i ++ D /\
    Forall (fun b => length b = 5000%nat) done /\
    (rpo <> "" -> retentionPolicy i' = retentionPolicy i /\
                  Forall (fun e => writeRp e = retentionPolicy i) (writesOf ext)) /\
    config i' = config i /\ totalCommands i' = totalCommands i /\
    (0 <= throttlePointsWritten i -> 0 <= throttlePointsWritten i') /\
    batchInv i'.

(** a configuration with a negative points-per-second limit *)
Definition cfg_neg : Config :=
  mkConfig "dump.txt" false (-1) "" "" "n" "any".

(** a configuration with retention-policy override "rp1" *)
Definition cfg_rp : Config :=
  mkConfig "dump.txt" false 0 "" "rp1" "n" "any".

(** The schema query a run issues: the override's CREATE DATABASE, or the
    statement phase 1 captured. *)
Definition createQuery (cfg : Config) (env : Env) : string :=
  if String.eqb (DestinationDatabase cfg) "" then fst (processDDL (input env) "")
  else String.append "CREATE DATABASE " (DestinationDatabase cfg).

(** The lines of the dump left to phase 2. *)
Definition phase2 (lines : list string) : list string :=
  snd (processDDL lines "").

Example sample_ok :
  match Import clock1s writesOk queriesOk 10 (env0 sample) (NewImporter cfg0) with
  | Done (i, r) => (totalInserts i, failedInserts i, database i, r, trace i)
  | _ => (0, 0, "", Some "", [])
  end
  = (1, 0, "foo", None,
     [EvQuery "CREATE DATABASE foo" ""; EvWrite "m,t=1 v=1 0" "foo" "" "n" "any";
      EvSummary 1 1 0]).
Proof. vm_compute. reflexivity. Qed.

Example sample_fail :
  match Import clock1s writesFail queriesOk 10 (env0 sample) (NewImporter cfg0) with
  | Done (i, r) => r
  | _ => None
  end = Some "1 point was not inserted".
Proof. vm_compute. reflexivity. Qed.

(** ** Lemmas on the flush *)

(** Reduce field projections of updated importers, one projection at a
    time (unfolding the setters wholesale copies the record at each level). *)
Ltac proj_simpl :=
  cbn [database retentionPolicy config batch batchCap totalInserts
       failedInserts totalCommands throttlePointsWritten lastWrite
       createDatabaseQuery clk nwrites trace
       set_database set_retentionPolicy set_batch set_counters
       set_throttlePointsWritten set_lastWrite set_createDatabaseQuery
       set_clk set_nwrites emit afterTick now fst snd] in *.

(** Split the first step of a [let*] chain in hypothesis [H]. *)
Ltac step_bind H x E :=
  match type of H with
  | bind ?A _ = _ => destruct A as [x| |] eqn:E; cbn [bind] in H; try discriminate
  end.

Section Flush.

Variable QueryResult : string -> string -> option string.

Variable Clock : nat -> Z.
Variable WriteResult : nat -> option string.

(** Complete description of a flush that returns: [m] throttled attempts
    (each one ticker wait), then one write of the whole batch. *)
Lemma batchWrite_spec : forall fuel i i',
  batchWrite Clock WriteResult fuel i = Done i' ->
  exists m : nat,
    let n := Z.of_nat (length (batch i)) in
    let body := Join (batch i) "
" in
    trace i' = trace i ++ repeat EvTick m ++
               EvWrite body (database i) (retentionPolicy i)
                 (Precision (config i)) (WriteConsistency (config i))
               :: errEvents (WriteResult (nwrites i)) body /\
    clk i' = (clk i + m + 2)%nat /\
    lastWrite i' = Clock (clk i + m + 1) /\
    throttlePointsWritten i' = 0 /\
    nwrites i' = S (nwrites i) /\
    batch i' = batch i /\ batchCap i' = batchCap i /\
    database i' = database i /\ retentionPolicy i' = retentionPolicy i /\
    config i' = config i /\ totalCommands i' = totalCommands i /\
    createDatabaseQuery i' = createDatabaseQuery i /\
    (totalInserts i', failedInserts i') =
      match WriteResult (nwrites i) with
      | Some _ => (totalInserts i, failedInserts i + n)
      | None => (totalInserts i + n, failedInserts i)
      end.
Proof.
  induction fuel as [|fuel IH]; intros i i' H; [discriminate|].
  cbn [batchWrite] in H. proj_simpl.
  match type of H with
  | (if ?c then _ else _) = _ => destruct c
  end.
  - apply IH in H. destruct H as [m Hm]. proj_simpl.
    exists (S m). cbn zeta in *.
    destruct Hm as (Ht & Hc & Hl & Htp & Hn & Hb & Hcap & Hd & Hr & Hcf & Htc & Hq & Hcnt).
    repeat split; try assumption.
    + rewrite Ht, <- app_assoc. reflexivity.
    + rewrite Hc. lia.
    + rewrite Hl. f_equal. lia.
  - exists O. cbn zeta. injection H as <-. proj_simpl.
    destruct (WriteResult (nwrites i)); proj_simpl; repeat split;
      try reflexivity; try lia;
      try (f_equal; lia); cbn; rewrite <- ?app_assoc; reflexivity.
Qed.

Lemma batchWrite_pending : forall fuel i i',
  batchWrite Clock WriteResult fuel i = Done i' ->
  totalInserts i' + failedInserts i' = pending i /\ batch i' = batch i /\
  batchCap i' = batchCap i /\ database i' = database i.
Proof.
  intros fuel i i' H. apply batchWrite_spec in H. destruct H as [m Hm].
  cbn zeta in Hm.
  destruct Hm as (_ & _ & _ & _ & _ & Hb & Hcap & Hd & _ & _ & _ & _ & Hcnt).
  unfold pending. destruct (WriteResult (nwrites i));
    injection Hcnt as -> ->; repeat split; auto; lia.
Qed.

Lemma batchAccumulator_pending : forall fuel line start i i',
  batchAccumulator Clock WriteResult fuel line start i = Done i' ->
  pending i' = pending i + 1 /\ database i' = database i.
Proof.
  intros fuel line start i i' H. unfold batchAccumulator, append_line in H.
  proj_simpl.
  destruct (_ =? batchSize) eqn:Efull.
  - destruct (batchWrite _ _ fuel _) as [i1| |] eqn:Ew; cbn in H; try discriminate.
    apply batchWrite_pending in Ew. proj_simpl.
    destruct Ew as (Hc & Hb & _ & Hd).
    rewrite length_app in Efull. apply Z.eqb_eq in Efull.
    destruct (Z.rem _ 100000 =? 0); injection H as <-; proj_simpl;
      unfold pending in *; proj_simpl; split; try congruence;
      rewrite length_app in *; cbn in *; lia.
  - injection H as <-. unfold pending. proj_simpl.
    rewrite length_app. cbn. split; [lia | reflexivity].
Qed.


Lemma dmlLine_pending : forall fuel dbo rpo start line i i',
  dmlLine Clock WriteResult fuel dbo rpo start line i = Done i' ->
  pending i' = pending i + (if isDataLine line then 1 else 0) /\
  (dbo <> "" -> database i' = database i).
Proof.
  intros fuel dbo rpo start line i i' H. unfold dmlLine in H.
  step_bind H i1 E1. step_bind H i2 E2.
  assert (H1 : pending i1 = pending i /\ (dbo <> "" -> database i1 = database i)).
  { destruct (String.eqb dbo "" && _) eqn:C.
    - destruct (contextValue line); cbn in E1; inversion E1; subst.
      apply andb_true_iff in C. destruct C as [C _].
      apply String.eqb_eq in C. split; [reflexivity | contradiction].
    - injection E1 as <-. auto. }
  assert (H2 : pending i2 = pending i1 /\ database i2 = database i1).
  { destruct (String.eqb rpo "" && _).
    - destruct (contextValue line); cbn in E2; inversion E2; subst. auto.
    - injection E2 as <-. auto. }
  destruct H1 as [P1 D1]. destruct H2 as [P2 D2].
  unfold isDataLine.
  destruct (HasPrefix line "#"); cbn [negb andb].
  - injection H as <-. split; [lia | intro Hd; rewrite D2; auto].
  - destruct (String.eqb (TrimSpace line) ""); cbn [negb].
    + injection H as <-. split; [lia | intro Hd; rewrite D2; auto].
    + apply batchAccumulator_pending in H. destruct H as [P D].
      split; [lia | intro Hd; rewrite D, D2; auto].
Qed.

Lemma dmlLoop_pending : forall fuel dbo rpo start lines i i',
  dmlLoop Clock WriteResult fuel dbo rpo start lines i = Done i' ->
  pending i' = pending i + dataLines lines /\
  (dbo <> "" -> database i' = database i).
Proof.
  induction lines as [|line rest IH]; intros i i' H.
  - injection H as <-. unfold dataLines. cbn. split; [lia | auto].
  - cbn [dmlLoop] in H. step_bind H i1 E1.
    apply dmlLine_pending in E1. apply IH in H.
    destruct E1 as [P1 D1]. destruct H as [P D].
    unfold dataLines in *. cbn [filter].
    split.
    + destruct (isDataLine line); cbn [length]; rewrite ?Nat2Z.inj_succ; lia.
    + intro Hd. rewrite D, D1; auto.
Qed.

Lemma processDML_pending : forall fuel lines dbo rpo i i',
  processDML Clock WriteResult QueryResult fuel lines dbo rpo i = Done i' ->
  totalInserts i' + failedInserts i' = pending i + dataLines lines.
Proof.
  intros fuel lines dbo rpo i i' H. unfold processDML in H. cbn [now] in H.
  step_bind H i1 E1. apply batchWrite_pending in H. destruct H as [H _].
  apply dmlLoop_pending in E1. destruct E1 as [E1 _].
  rewrite H, E1. unfold pending, queryExecutor, execute.
  destruct (negb (String.eqb dbo "")), (negb (String.eqb rpo ""));
    proj_simpl; destruct (QueryResult _ _); proj_simpl; reflexivity.
Qed.

(** A run whose setup succeeds: phase 1 on the whole input, the clock
    primed, then phase 2 on what phase 1 left, then the checks. *)
Lemma Import_run : forall fuel cfg env i' r,
  setupOk cfg env ->
  Import Clock WriteResult QueryResult fuel env (NewImporter cfg) = Done (i', r) ->
  exists i1,
    processDML Clock WriteResult QueryResult fuel (phase2 (input env))
      (DestinationDatabase cfg) (RetentionPolicy cfg)
      (set_lastWrite (Clock 0) (set_clk 1
         (set_createDatabaseQuery (fst (processDDL (input env) ""))
            (NewImporter cfg)))) = Done i1 /\
    i' = summary i1 /\
    r = match scanErr env with
        | Some e => Some (String.append "reading standard input: " e)
        | None =>
          if 0 <? failedInserts i1 then
            Some (String.append (itoa (failedInserts i1))
                    (String.append " point"
                       (String.append
                          (if 1 <? failedInserts i1 then "s were" else " was")
                          " not inserted")))
          else None
        end.
Proof.
  intros fuel cfg env i' r (Hc & Hp & Hpath & Ho & Hg) H.
  unfold Import in H. rewrite Hc, Hp in H. cbn [config NewImporter] in H.
  apply String.eqb_neq in Hpath. rewrite Hpath in H.
  step_bind H x Ex. injection H as <- <-.
  unfold importBody in Ex. rewrite Ho in Ex. cbn [config NewImporter] in Ex.
  replace (if Compressed cfg then gzipErr env else None) with (@None string) in Ex
    by (destruct (Compressed cfg); auto; rewrite Hg; auto).
  unfold phase2. cbn [createDatabaseQuery NewImporter] in Ex.
  destruct (processDDL (input env) "") as [q rest] eqn:Eq. cbn [fst snd].
  proj_simpl.
  step_bind Ex i1 E1. exists i1. split; [exact E1|].
  destruct (scanErr env); [injection Ex as <-; auto|].
  destruct (0 <? failedInserts i1); injection Ex as <-; auto.
Qed.

Lemma batchWrite_override : forall ov fuel i i',
  batchWrite Clock WriteResult fuel i = Done i' ->
  database i = ov -> Forall (overrideEvent ov) (trace i) ->
  database i' = ov /\ Forall (overrideEvent ov) (trace i').
Proof.
  intros ov fuel i i' H Hd Ht. apply batchWrite_spec in H.
  destruct H as [m Hm]. cbn zeta in Hm.
  destruct Hm as (Ht' & _ & _ & _ & _ & _ & _ & Hd' & _).
  split; [congruence|]. rewrite Ht'.
  apply Forall_app. split; [exact Ht|].
  apply Forall_app. split.
  - clear Ht'. induction m as [|m IHm]; cbn [repeat]; constructor; auto. exact I.
  - constructor; [exact Hd|].
    destruct (WriteResult (nwrites i)); repeat constructor.
Qed.

Lemma batchAccumulator_override : forall ov fuel line start i i',
  batchAccumulator Clock WriteResult fuel line start i = Done i' ->
  database i = ov -> Forall (overrideEvent ov) (trace i) ->
  database i' = ov /\ Forall (overrideEvent ov) (trace i').
Proof.
  intros ov fuel line start i i' H Hd Ht. unfold batchAccumulator, append_line in H.
  proj_simpl.
  destruct (_ =? batchSize).
  - destruct (batchWrite _ _ fuel _) as [i1| |] eqn:Ew; cbn in H; try discriminate.
    apply (batchWrite_override ov) in Ew; proj_simpl; auto.
    destruct Ew as [Hd1 Ht1].
    destruct (Z.rem _ 100000 =? 0); injection H as <-; proj_simpl;
      split; auto.
    apply Forall_app. split; [exact Ht1 | repeat constructor].
  - injection H as <-. proj_simpl. auto.
Qed.

Lemma dmlLoop_override : forall ov fuel rpo start lines i i',
  ov <> "" ->
  dmlLoop Clock WriteResult fuel ov rpo start lines i = Done i' ->
  database i = ov -> Forall (overrideEvent ov) (trace i) ->
  database i' = ov /\ Forall (overrideEvent ov) (trace i').
Proof.
  intros ov fuel rpo start lines. induction lines as [|line rest IH];
    intros i i' Hov H Hd Ht; cbn [dmlLoop] in H.
  - injection H as <-. auto.
  - step_bind H i1 E1.
    assert (Hi1 : database i1 = ov /\ Forall (overrideEvent ov) (trace i1)).
    2: { destruct Hi1. apply (IH i1); auto. }
    unfold dmlLine in E1. apply String.eqb_neq in Hov. rewrite Hov in E1.
    cbn [andb bind] in E1.
    step_bind E1 i2 E2.
    assert (H2 : database i2 = ov /\ trace i2 = trace i).
    { destruct (String.eqb rpo "" && _).
      - destruct (contextValue line); cbn in E2; inversion E2; subst; auto.
      - injection E2 as <-. auto. }
    destruct H2 as [Hd2 Ht2]. rewrite <- Ht2 in Ht.
    destruct (HasPrefix line "#"); [injection E1 as <-; split; auto|].
    destruct (String.eqb (TrimSpace line) ""); [injection E1 as <-; split; auto|].
    exact (batchAccumulator_override ov _ _ _ _ _ E1 Hd2 Ht).
Qed.

Lemma batchAccumulator_batch : forall fuel line start i i',
  batchInv i ->
  batchAccumulator Clock WriteResult fuel line start i = Done i' ->
  batchInv i' /\
  (Z.of_nat (length (batch i)) + 1 = batchSize -> batch i' = []) /\
  (Z.of_nat (length (batch i)) + 1 < batchSize -> batch i' = batch i ++ [line]).
Proof.
  intros fuel line start i i' [Hlen Hcap] H.
  unfold batchAccumulator, append_line in H. proj_simpl.
  replace (Z.of_nat (length (batch i)) + 1 <=? batchCap i) with true in H
    by (symmetry; apply Z.leb_le; rewrite Hcap; unfold batchSize in *; lia).
  proj_simpl. rewrite length_app in H. cbn [length] in H.
  destruct (Z.of_nat (length (batch i) + 1) =? batchSize) eqn:Efull.
  - apply Z.eqb_eq in Efull.
    destruct (batchWrite _ _ fuel _) as [i1| |] eqn:Ew; cbn in H; try discriminate.
    apply batchWrite_pending in Ew. proj_simpl.
    destruct Ew as (_ & _ & Hc1 & _).
    assert (Hb : batch i' = [] /\ batchCap i' = batchSize).
    { destruct (Z.rem _ 100000 =? 0); injection H as <-; proj_simpl;
        split; congruence. }
    destruct Hb as [Hb Hc]. unfold batchInv. rewrite Hb, Hc.
    split; [split; [cbn; unfold batchSize; lia | reflexivity]|].
    split; [auto | lia].
  - apply Z.eqb_neq in Efull. injection H as <-. proj_simpl.
    unfold batchInv. proj_simpl. rewrite length_app. cbn [length].
    repeat split; try lia; auto.
Qed.

Lemma dmlLoop_batch : forall fuel dbo rpo start lines i i',
  batchInv i ->
  dmlLoop Clock WriteResult fuel dbo rpo start lines i = Done i' ->
  batchInv i'.
Proof.
  induction lines as [|line rest IH]; intros i i' Hi H; cbn [dmlLoop] in H.
  - injection H as <-. exact Hi.
  - step_bind H i1 E1. apply (IH i1); [|exact H].
    unfold dmlLine in E1. step_bind E1 i2 E2. step_bind E1 i3 E3.
    assert (H2 : batch i2 = batch i /\ batchCap i2 = batchCap i).
    { clear -E2. destruct (String.eqb dbo "" && _).
      - destruct (contextValue line); cbn in E2; inversion E2; subst; auto.
      - injection E2 as <-. auto. }
    assert (H3 : batch i3 = batch i2 /\ batchCap i3 = batchCap i2).
    { destruct (String.eqb rpo "" && _).
      - destruct (contextValue line); cbn in E3; inversion E3; subst; auto.
      - injection E3 as <-. auto. }
    assert (Hi3 : batchInv i3).
    { unfold batchInv in *. destruct H3 as [-> ->]. destruct H2 as [-> ->]. exact Hi. }
    destruct (HasPrefix line "#"); [injection E1 as <-; exact Hi3|].
    destruct (String.eqb (TrimSpace line) ""); [injection E1 as <-; exact Hi3|].
    exact (proj1 (batchAccumulator_batch _ _ _ _ _ Hi3 E1)).
Qed.

End Flush.

(** The importer state on entry to phase 2 has counted nothing. *)
Lemma pending_start : forall Clock cfg q,
  pending (set_lastWrite (Clock 0%nat) (set_clk 1
             (set_createDatabaseQuery q (NewImporter cfg)))) = 0.
Proof. reflexivity. Qed.

(** ** Lemmas on strings and phase 1 *)

Lemma prefix_app : forall p s,
  String.prefix p s = true -> exists r, s = String.append p r.
Proof.
  induction p as [|a p IH]; intros s H.
  - exists s. reflexivity.
  - destruct s as [|b s]; [discriminate|]. cbn in H.
    destruct (ascii_dec a b) as [<-|]; [|discriminate].
    destruct (IH s H) as [r ->]. exists r. reflexivity.
Qed.

Lemma splitAux_nonempty : forall fuel sep s cur, splitAux fuel sep s cur <> [].
Proof.
  induction fuel as [|f IH]; intros sep s cur; cbn; [discriminate|].
  destruct s as [|c r]; [discriminate|].
  destruct (String.prefix sep (String c r)); [discriminate | apply IH].
Qed.

Lemma prefix_empty : forall s, String.prefix "" s = true.
Proof. destruct s; reflexivity. Qed.

(** Splitting on ":" a string with a colon after [a] gives two pieces at
    least, when the fuel covers [a]. *)
Lemma splitAux_colon : forall a r fuel cur,
  (String.length a < fuel)%nat ->
  (2 <= length (splitAux fuel ":" (String.append a (String ":" r)) cur))%nat.
Proof.
  induction a as [|c a IH]; intros r fuel cur Hf;
    (destruct fuel as [|f]; [cbn in Hf; lia|]).
  - cbn [String.append splitAux]. cbn [String.prefix].
    destruct (ascii_dec ":" ":") as [_|n]; [|contradiction n; reflexivity].
    rewrite prefix_empty. cbn [length].
    destruct (splitAux f ":" _ "") eqn:E;
      [exfalso; exact (splitAux_nonempty _ _ _ _ E) | cbn; lia].
  - cbn [String.append splitAux].
    destruct (String.prefix ":" _).
    + cbn [length].
      destruct (splitAux f ":" _ "") eqn:E;
        [exfalso; exact (splitAux_nonempty _ _ _ _ E) | cbn; lia].
    + apply IH. cbn in Hf. lia.
Qed.

Lemma String_length_append : forall a b,
  String.length (String.append a b) = (String.length a + String.length b)%nat.
Proof. induction a as [|c a IH]; intro b; cbn; [reflexivity | rewrite IH; reflexivity]. Qed.

Lemma last_cons_default : forall (l : list string) x d,
  last (x :: l) d = last l x.
Proof.
  induction l as [|y l IH]; intros x d; [reflexivity|].
  change (last (y :: l) d = last (y :: l) x).
  destruct l as [|z l]; [reflexivity|].
  rewrite !IH. reflexivity.
Qed.


(** ** Claims *)

(** C1: in a full run whose setup succeeds, every data line of phase 2
    (neither blank nor comment-prefixed) is counted exactly once:
    their number is [totalInserts + failedInserts] at the end. *)
Theorem full_run_counts_every_data_line :
  forall Clock WriteResult QueryResult fuel cfg env i' r,
  setupOk cfg env ->
  Import Clock WriteResult QueryResult fuel env (NewImporter cfg) = Done (i', r) ->
  dataLines (phase2 (input env)) = totalInserts i' + failedInserts i'.
Proof.
  intros Clock WriteResult QueryResult fuel cfg env i' r Hs H.
  destruct (Import_run _ _ _ _ _ _ _ _ Hs H) as (i1 & E1 & -> & _).
  apply processDML_pending in E1. rewrite pending_start in E1.
  unfold summary. destruct (0 <? totalInserts i1); proj_simpl; lia.
Qed.

Lemma full_run_counts_every_data_line_witness :
  exists i' r,
  setupOk cfg0 (env0 sample) /\
  Import clock1s writesFail queriesOk 10 (env0 sample) (NewImporter cfg0) = Done (i', r) /\
  dataLines (phase2 (input (env0 sample))) = totalInserts i' + failedInserts i'.
Proof.
  assert (Hs : setupOk cfg0 (env0 sample))
    by (repeat split; cbn; discriminate).
  destruct (Import clock1s writesFail queriesOk 10 (env0 sample) (NewImporter cfg0))
    as [[i' r]| |] eqn:E; [| vm_compute in E; discriminate..].
  exists i', r. split; [exact Hs|]. split; [reflexivity|].
  exact (full_run_counts_every_data_line _ _ _ _ _ _ _ _ Hs E).
Defined.

(** C2: a flush writes only once the rate check passes. The rate is the
    accumulated count (including this batch) when no time has elapsed
    since the last write, and count per elapsed second otherwise. With a
    positive limit that the rate exceeds, the attempt waits one tick, takes
    the batch back out of the count and retries the whole flush; with no
    limit, or a rate within it, the first effect is the write of the
    joined batch to the current database and retention policy with the
    configured precision and consistency. *)
Theorem batchWrite_rate_check :
  forall Clock WriteResult fuel i,
  let n := Z.of_nat (length (batch i)) in
  let rate := currentPPS (throttlePointsWritten i + n) (Clock (clk i) - lastWrite i) in
  (0 < PPS (config i) -> PPS (config i) < rate ->
     batchWrite Clock WriteResult (S fuel) i =
     batchWrite Clock WriteResult fuel (afterTick i)) /\
  (PPS (config i) = 0 \/ rate <= PPS (config i) ->
     exists i' rest,
       batchWrite Clock WriteResult (S fuel) i = Done i' /\
       trace i' = trace i ++
         EvWrite (Join (batch i) "
") (database i) (retentionPolicy i)
           (Precision (config i)) (WriteConsistency (config i)) :: rest).
Proof.
  intros Clock WriteResult fuel i n rate. split.
  - intros Hpos Hgt. cbn [batchWrite]. proj_simpl.
    replace ((PPS (config i) <? _) && _) with true
      by (symmetry; apply andb_true_iff; split;
          [apply Z.ltb_lt; exact Hgt | apply negb_true_iff, Z.eqb_neq; lia]).
    f_equal. destruct i as [d rp c b cap ti fi tc tpw lw q k nw tr].
    unfold afterTick. cbv [emit set_clk set_throttlePointsWritten]. cbn.
    f_equal. lia.
  - intros Hok. cbn [batchWrite]. proj_simpl.
    replace ((PPS (config i) <? _) && _) with false.
    + destruct (WriteResult (nwrites i)) as [msg|];
        do 2 eexists; (split; [reflexivity|]); proj_simpl;
        rewrite <- ?app_assoc; reflexivity.
    + symmetry. apply andb_false_iff. destruct Hok as [H0|Hle].
      * right. rewrite H0. reflexivity.
      * left. apply Z.ltb_ge. exact Hle.
Qed.

(** C3: a flush writes the batch in one transport call. When the write
    fails, [failedInserts] grows by the batch length, the error is logged
    and the joined lines are printed verbatim for capture; when it succeeds
    [totalInserts] grows by the batch length. Either way the flush returns
    normally, so processing goes on. *)
Theorem batchWrite_counts_whole_batch :
  forall Clock WriteResult fuel i i',
  batchWrite Clock WriteResult fuel i = Done i' ->
  let n := Z.of_nat (length (batch i)) in
  let body := Join (batch i) "
" in
  let w := EvWrite body (database i) (retentionPolicy i)
             (Precision (config i)) (WriteConsistency (config i)) in
  match WriteResult (nwrites i) with
  | Some e =>
    failedInserts i' = failedInserts i + n /\ totalInserts i' = totalInserts i /\
    exists m, trace i' = trace i ++ repeat EvTick m ++ [w; EvWriteError e; EvStdout body]
  | None =>
    totalInserts i' = totalInserts i + n /\ failedInserts i' = failedInserts i /\
    exists m, trace i' = trace i ++ repeat EvTick m ++ [w]
  end.
Proof.
  intros Clock WriteResult fuel i i' H.
  apply batchWrite_spec in H. destruct H as [m Hm]. cbn zeta in *.
  destruct Hm as (Ht & _ & _ & _ & _ & _ & _ & _ & _ & _ & _ & _ & Hcnt).
  destruct (WriteResult (nwrites i)) as [e|]; injection Hcnt as -> ->;
    (split; [reflexivity|]); (split; [reflexivity|]); exists m; exact Ht.
Qed.

Lemma batchWrite_counts_whole_batch_witness :
  exists i', batchWrite clock1s writesFail 10 batch3 = Done i' /\
  failedInserts i' = 3 /\ totalInserts i' = 0 /\
  exists m, trace i' = repeat EvTick m ++
    [EvWrite "a
b
c" "" "" "n" "any"; EvWriteError "timeout"; EvStdout "a
b
c"].
Proof.
  destruct (batchWrite clock1s writesFail 10 batch3) as [i'| |] eqn:E;
    [| vm_compute in E; discriminate..].
  exists i'. split; [reflexivity|].
  exact (batchWrite_counts_whole_batch clock1s writesFail 10 batch3 i' E).
Defined.

(** C9: whenever a flush returns, however many throttled attempts came
    first and whatever the transport answered, the rate window is reset:
    the accumulated count is zero and the last-write instant is the clock
    reading taken last. *)
Theorem batchWrite_resets_rate_window :
  forall Clock WriteResult fuel i i',
  batchWrite Clock WriteResult fuel i = Done i' ->
  throttlePointsWritten i' = 0 /\
  exists k, clk i' = S k /\ lastWrite i' = Clock k.
Proof.
  intros Clock WriteResult fuel i i' H.
  apply batchWrite_spec in H. destruct H as [m Hm]. cbn zeta in *.
  destruct Hm as (_ & Hc & Hl & Htp & _).
  split; [exact Htp|]. exists (clk i + m + 1)%nat. split; [lia | exact Hl].
Qed.

Lemma batchWrite_resets_rate_window_witness :
  exists i', batchWrite clock1s writesOk 10 batch3 = Done i' /\
  throttlePointsWritten i' = 0 /\
  exists k, clk i' = S k /\ lastWrite i' = clock1s k.
Proof.
  destruct (batchWrite clock1s writesOk 10 batch3) as [i'| |] eqn:E;
    [| vm_compute in E; discriminate..].
  exists i'. split; [reflexivity|].
  exact (batchWrite_resets_rate_window clock1s writesOk 10 batch3 i' E).
Defined.

(** C8: phase 1 stops at the first line with prefix "# DML" and consumes
    it; the captured statement is the last line before it that is neither
    comment-prefixed nor blank (the previous value when there is none).
    When the stream ends without a marker ([rest] empty) phase 1 ends the
    same way, with nothing left to read. *)
Theorem processDDL_last_statement : forall pre rest q,
  Forall (fun l => HasPrefix l "# DML" = false) pre ->
  match rest with [] => True | marker :: _ => HasPrefix marker "# DML" = true end ->
  processDDL (pre ++ rest) q = (lastStatement pre q, tl rest).
Proof.
  induction pre as [|l pre IH]; intros rest q Hpre Hrest.
  - destruct rest as [|marker after]; [reflexivity|].
    cbn. rewrite Hrest. reflexivity.
  - inversion Hpre as [|? ? Hl Hpre']; subst.
    cbn [app processDDL]. rewrite Hl.
    unfold lastStatement. cbn [filter]. unfold isDataLine.
    destruct (HasPrefix l "#"); cbn [negb andb]; [apply IH; assumption|].
    destruct (String.eqb (TrimSpace l) ""); cbn [negb]; [apply IH; assumption|].
    rewrite last_cons_default. apply IH; assumption.
Qed.

Lemma processDDL_last_statement_witness :
  processDDL (["# DDL"; "CREATE DATABASE a"; "  "; "CREATE DATABASE b"]
              ++ ["# DML"; "m v=1"]) ""
  = ("CREATE DATABASE b", ["m v=1"]).
Proof.
  change ("CREATE DATABASE b", ["m v=1"]) with
    (lastStatement ["# DDL"; "CREATE DATABASE a"; "  "; "CREATE DATABASE b"] "",
     tl ["# DML"; "m v=1"]).
  apply processDDL_last_statement.
  - repeat constructor.
  - reflexivity.
Defined.

(** C6: a database-context line without override sets the target database
    to the trimmed text between the first and the second colon, not to the
    whole remainder after the first colon: "# CONTEXT-DATABASE: my:db"
    selects database "my". *)
Theorem context_database_second_colon :
  forall Clock WriteResult fuel rpoverride start i,
  dmlLine Clock WriteResult fuel "" rpoverride start "# CONTEXT-DATABASE: my:db" i
  = Done (set_database "my" i) /\
  TrimSpace " my:db" = "my:db".
Proof.
  intros. split; [|reflexivity].
  unfold dmlLine. destruct (String.eqb rpoverride ""); reflexivity.
Qed.

(** C10: on a line with either context prefix the split on ":" has an
    element at index 1, so the index never panics. *)
Theorem context_split_in_bounds : forall line,
  HasPrefix line "# CONTEXT-DATABASE:" = true \/
  HasPrefix line "# CONTEXT-RETENTION-POLICY:" = true ->
  exists v, nth_error (Split line ":") 1 = Some v /\
            contextValue line = Done (TrimSpace v).
Proof.
  intros line H.
  assert (Ha : exists a r, line = String.append a (String ":" r) /\
                           (String.length a < S (String.length line))%nat).
  { destruct H as [H|H]; apply prefix_app in H; destruct H as [r ->].
    - exists "# CONTEXT-DATABASE", r. split; [reflexivity|].
      rewrite String_length_append. cbn. lia.
    - exists "# CONTEXT-RETENTION-POLICY", r. split; [reflexivity|].
      rewrite String_length_append. cbn. lia. }
  destruct Ha as (a & r & Hline & Hlen).
  pose proof (splitAux_colon a r _ "" Hlen) as H2. rewrite <- Hline in H2.
  unfold contextValue, index1, Split.
  destruct (nth_error (splitAux (S (String.length line)) ":" line "") 1) as [v|] eqn:E.
  - exists v. split; reflexivity.
  - apply nth_error_None in E. lia.
Qed.

Lemma context_split_in_bounds_witness :
  exists v, nth_error (Split "# CONTEXT-RETENTION-POLICY: autogen" ":") 1 = Some v /\
            contextValue "# CONTEXT-RETENTION-POLICY: autogen" = Done (TrimSpace v).
Proof.
  apply context_split_in_bounds. right. reflexivity.
Defined.

(** C4: when setup succeeds and the scan reports no error, [Import] fails
    exactly when some insert failed, with "1 point was not inserted" for
    one failed point and "N points were not inserted" for more, and
    succeeds when none failed. *)
Theorem Import_failure_message :
  forall Clock WriteResult QueryResult fuel cfg env i' r,
  setupOk cfg env -> scanErr env = None ->
  Import Clock WriteResult QueryResult fuel env (NewImporter cfg) = Done (i', r) ->
  (r <> None <-> 0 < failedInserts i') /\
  (failedInserts i' = 0 -> r = None) /\
  (failedInserts i' = 1 ->
     r = Some (String.append (itoa (failedInserts i')) " point was not inserted")) /\
  (1 < failedInserts i' ->
     r = Some (String.append (itoa (failedInserts i')) " points were not inserted")).
Proof.
  intros Clock WriteResult QueryResult fuel cfg env i' r Hs Hscan H.
  destruct (Import_run _ _ _ _ _ _ _ _ Hs H) as (i1 & _ & -> & ->).
  rewrite Hscan.
  assert (Hf : failedInserts (summary i1) = failedInserts i1)
    by (unfold summary; destruct (0 <? totalInserts i1); reflexivity).
  rewrite Hf. destruct (Z.ltb_spec 0 (failedInserts i1)) as [Hp|Hn].
  - split; [split; [intros _; exact Hp | discriminate]|].
    split; [lia|]. split.
    + intros H1. rewrite H1. reflexivity.
    + intros H1. apply Z.ltb_lt in H1. rewrite H1. reflexivity.
  - split; [split; [intros []; reflexivity | lia]|].
    split; [reflexivity|]. split; lia.
Qed.

Lemma Import_failure_message_witness :
  exists i' r,
  setupOk cfg0 (env0 sample) /\ scanErr (env0 sample) = None /\
  Import clock1s writesFail queriesOk 10 (env0 sample) (NewImporter cfg0) = Done (i', r) /\
  r = Some (String.append (itoa (failedInserts i')) " point was not inserted").
Proof.
  assert (Hs : setupOk cfg0 (env0 sample))
    by (repeat split; cbn; discriminate).
  destruct (Import clock1s writesFail queriesOk 10 (env0 sample) (NewImporter cfg0))
    as [[i' r]| |] eqn:E; [| vm_compute in E; discriminate..].
  exists i', r. split; [exact Hs|]. split; [reflexivity|]. split; [reflexivity|].
  destruct (Import_failure_message _ _ _ _ _ _ _ _ Hs eq_refl E) as (_ & _ & H1 & _).
  apply H1. vm_compute in E. injection E as <- <-. reflexivity.
Defined.

(** C7: with a destination-database override [ov], the only query of the
    run is [CREATE DATABASE ov], every batch write goes to [ov], and the
    target database is [ov] at the end, whatever context directives the
    stream holds. *)
Theorem override_wins :
  forall Clock WriteResult QueryResult fuel cfg env i' r,
  setupOk cfg env -> DestinationDatabase cfg <> "" ->
  Import Clock WriteResult QueryResult fuel env (NewImporter cfg) = Done (i', r) ->
  database i' = DestinationDatabase cfg /\
  Forall (overrideEvent (DestinationDatabase cfg)) (trace i').
Proof.
  intros Clock WriteResult QueryResult fuel cfg env i' r Hs Hov H.
  destruct (Import_run _ _ _ _ _ _ _ _ Hs H) as (i1 & E1 & -> & _).
  unfold processDML in E1. cbn [now] in E1.
  pose proof Hov as Hov'. apply String.eqb_neq in Hov'. rewrite Hov' in E1.
  cbn [negb] in E1.
  step_bind E1 i2 E2.
  apply (dmlLoop_override _ _ _ _ _ _ _ _ _ Hov) in E2.
  - destruct E2 as [Hd2 Ht2].
    apply (batchWrite_override _ _ _ _ _ _ E1) in Hd2; [|exact Ht2].
    destruct Hd2 as [Hd1 Ht1].
    unfold summary. destruct (0 <? totalInserts i1); proj_simpl;
      (split; [exact Hd1|]); [|exact Ht1].
    apply Forall_app. split; [exact Ht1 | repeat constructor].
  - unfold queryExecutor, execute.
    destruct (negb (String.eqb (RetentionPolicy cfg) "")); proj_simpl;
      destruct (QueryResult _ _); proj_simpl; reflexivity.
  - unfold queryExecutor, execute.
    destruct (negb (String.eqb (RetentionPolicy cfg) "")); proj_simpl;
      destruct (QueryResult _ _); proj_simpl; repeat constructor.
Qed.

Lemma override_wins_witness :
  exists i' r,
  setupOk cfg_bar (env0 sample) /\ DestinationDatabase cfg_bar <> "" /\
  Import clock1s writesOk queriesOk 10 (env0 sample) (NewImporter cfg_bar) = Done (i', r) /\
  database i' = "bar" /\ Forall (overrideEvent "bar") (trace i').
Proof.
  assert (Hs : setupOk cfg_bar (env0 sample))
    by (repeat split; cbn; discriminate).
  assert (Hov : DestinationDatabase cfg_bar <> "") by discriminate.
  destruct (Import clock1s writesOk queriesOk 10 (env0 sample) (NewImporter cfg_bar))
    as [[i' r]| |] eqn:E; [| vm_compute in E; discriminate..].
  exists i', r. split; [exact Hs|]. split; [exact Hov|]. split; [reflexivity|].
  exact (override_wins _ _ _ _ _ _ _ _ Hs Hov E).
Defined.

(** C5 (as stated, refuted): the flush at the end of the stream does not
    reset the batch; after a run on one data line the line was written and
    is still in the batch. *)
Lemma final_flush_keeps_batch :
  exists i',
  processDML clock1s writesOk queriesOk 5 ["m v=1"] "" "" (NewImporter cfg0) = Done i' /\
  In (EvWrite "m v=1" "" "" "n" "any") (trace i') /\ batch i' = ["m v=1"].
Proof.
  destruct (processDML clock1s writesOk queriesOk 5 ["m v=1"] "" "" (NewImporter cfg0))
    as [i'| |] eqn:E; [| vm_compute in E; discriminate..].
  exists i'. split; [reflexivity|].
  vm_compute in E. injection E as <-. split; [cbn; tauto | reflexivity].
Qed.

(** C5 (amended): the flush made by the accumulator when the batch reaches
    [batchSize] leaves an empty batch of capacity [batchSize], so the next
    accepted line starts a fresh batch; below capacity a line is appended.
    The batch stays below [batchSize] lines in an array of capacity
    [batchSize] from [NewImporter] through every step of phase 2, while a
    flush itself (as at the end of the stream) leaves the batch as it
    is. *)
Theorem accumulator_flush_resets_batch :
  forall Clock WriteResult fuel line start i i',
  batchInv i ->
  batchAccumulator Clock WriteResult fuel line start i = Done i' ->
  batchInv i' /\
  (Z.of_nat (length (batch i)) + 1 = batchSize -> batch i' = []) /\
  (Z.of_nat (length (batch i)) + 1 < batchSize -> batch i' = batch i ++ [line]) /\
  (forall cfg, batchInv (NewImporter cfg)) /\
  (forall dbo rpo lines j j',
     batchInv j ->
     dmlLoop Clock WriteResult fuel dbo rpo start lines j = Done j' ->
     batchInv j') /\
  (forall j j',
     batchWrite Clock WriteResult fuel j = Done j' ->
     batch j' = batch j /\ batchCap j' = batchCap j).
Proof.
  intros Clock WriteResult fuel line start i i' Hi H.
  destruct (batchAccumulator_batch _ _ _ _ _ _ _ Hi H) as (H1 & H2 & H3).
  split; [exact H1|]. split; [exact H2|]. split; [exact H3|].
  split; [intros cfg; split; reflexivity|].
  split.
  - intros dbo rpo lines j j'. apply dmlLoop_batch.
  - intros j j' Hw. apply batchWrite_pending in Hw. tauto.
Qed.

(** The flush of [batch4999] completes. *)
Lemma batch4999_flush_done :
  match batchAccumulator clock1s writesOk 10 "d" 0 batch4999 with
  | Done _ => true
  | _ => false
  end = true.
Proof. vm_compute. reflexivity. Qed.

Lemma accumulator_flush_resets_batch_witness :
  exists i' j',
  batchInv batch4999 /\
  batchAccumulator clock1s writesOk 10 "d" 0 batch4999 = Done i' /\
  batch i' = [] /\
  batchInv batch3 /\
  batchAccumulator clock1s writesOk 10 "d" 0 batch3 = Done j' /\
  batch j' = ["a"; "b"; "c"; "d"].
Proof.
  assert (Hi : batchInv batch4999) by (split; vm_compute; reflexivity).
  assert (Hj : batchInv batch3) by (split; reflexivity).
  destruct (batchAccumulator clock1s writesOk 10 "d" 0 batch4999) as [i'| |] eqn:E;
    [| pose proof batch4999_flush_done as N; rewrite E in N; discriminate N..].
  destruct (batchAccumulator clock1s writesOk 10 "d" 0 batch3) as [j'| |] eqn:F;
    [| vm_compute in F; discriminate..].
  exists i', j'. split; [exact Hi|]. split; [reflexivity|].
  split.
  { destruct (accumulator_flush_resets_batch _ _ _ _ _ _ _ Hi E) as (_ & H2 & _).
    apply H2. vm_compute. reflexivity. }
  split; [exact Hj|]. split; [reflexivity|].
  destruct (accumulator_flush_resets_batch _ _ _ _ _ _ _ Hj F) as (_ & _ & H3 & _).
  apply H3. reflexivity.
Defined.

(** ** Further properties of the importer *)

Section Phase2.

Variable Clock : nat -> Z.
Variable WriteResult : nat -> option string.
Variable QueryResult : string -> string -> option string.

Lemma writesOf_app : forall a b, writesOf (a ++ b) = writesOf a ++ writesOf b.
Proof. intros. apply filter_app. Qed.

Lemma writesOf_ticks : forall m, writesOf (repeat EvTick m) = [].
Proof. induction m; auto. Qed.

Lemma flush_ticks : forall m, Forall (fun e => flushEvent e = true) (repeat EvTick m).
Proof. induction m; constructor; auto. Qed.

Lemma batchWrite_ext : forall fuel i i',
  batchWrite Clock WriteResult fuel i = Done i' ->
  exists ext,
    trace i' = trace i ++ ext /\
    Forall (fun e => flushEvent e = true) ext /\
    writesOf ext = [EvWrite (Join (batch i) "
") (database i) (retentionPolicy i)
                      (Precision (config i)) (WriteConsistency (config i))] /\
    retentionPolicy i' = retentionPolicy i /\ config i' = config i /\
    totalCommands i' = totalCommands i /\ throttlePointsWritten i' = 0 /\
    batch i' = batch i /\ batchCap i' = batchCap i.
Proof.
  intros fuel i i' H. apply batchWrite_spec in H. destruct H as [m Hm].
  cbn zeta in Hm.
  destruct Hm as (Ht & _ & _ & Htp & _ & Hb & Hcap & _ & Hr & Hc & Htc & _).
  eexists. split; [exact Ht|].
  split; [|split; [|tauto]].
  - apply Forall_app. split; [apply flush_ticks|].
    constructor; [reflexivity|].
    destruct (WriteResult (nwrites i)); repeat constructor.
  - rewrite writesOf_app, writesOf_ticks. cbn.
    destruct (WriteResult (nwrites i)); reflexivity.
Qed.

Lemma phase2Step_refl : forall rpo i, batchInv i -> phase2Step rpo i i [].
Proof.
  intros rpo i Hi. exists [], []. rewrite !app_nil_r.
  split; [reflexivity|]. split; [constructor|]. split; [reflexivity|].
  split; [reflexivity|]. split; [constructor|].
  split; [intros _; split; [reflexivity | constructor]|].
  repeat split; auto; apply Hi.
Qed.

Lemma phase2Step_trans : forall rpo i j k D1 D2,
  phase2Step rpo i j D1 -> phase2Step rpo j k D2 -> phase2Step rpo i k (D1 ++ D2).
Proof.
  intros rpo i j k D1 D2
    (d1 & e1 & T1 & F1 & W1 & C1 & L1 & R1 & Cf1 & Tc1 & P1 & I1)
    (d2 & e2 & T2 & F2 & W2 & C2 & L2 & R2 & Cf2 & Tc2 & P2 & I2).
  exists (d1 ++ d2), (e1 ++ e2).
  split; [rewrite T2, T1, app_assoc; reflexivity|].
  split; [apply Forall_app; auto|].
  split; [rewrite writesOf_app, !map_app, W1, W2; reflexivity|].
  split; [rewrite concat_app, <- app_assoc, C2, app_assoc, C1, app_assoc; reflexivity|].
  split; [apply Forall_app; auto|].
  split.
  - intros Hr. destruct (R1 Hr) as [Ra Rb]. destruct (R2 Hr) as [Rc Rd].
    split; [congruence|]. rewrite writesOf_app. apply Forall_app.
    split; [exact Rb | rewrite <- Ra; exact Rd].
  - split; [congruence|]. split; [congruence|].
    split; [intros H0; apply P2, P1, H0 | exact I2].
Qed.

Lemma batchAccumulator_step : forall rpo fuel line start i i',
  batchInv i ->
  batchAccumulator Clock WriteResult fuel line start i = Done i' ->
  phase2Step rpo i i' [line].
Proof.
  intros rpo fuel line start i i' Hi H.
  pose proof (batchAccumulator_batch Clock WriteResult fuel line start i i' Hi H)
    as (Inv' & _).
  destruct Hi as [Hlen Hcap].
  unfold batchAccumulator, append_line in H. proj_simpl.
  replace (Z.of_nat (length (batch i)) + 1 <=? batchCap i) with true in H
    by (symmetry; apply Z.leb_le; rewrite Hcap; unfold batchSize in *; lia).
  proj_simpl. rewrite length_app in H. cbn [length] in H.
  destruct (Z.of_nat (length (batch i) + 1) =? batchSize) eqn:Efull.
  - apply Z.eqb_eq in Efull.
    destruct (batchWrite _ _ fuel _) as [i1| |] eqn:Ew; cbn in H; try discriminate.
    apply batchWrite_ext in Ew.
    destruct Ew as (ext & T & F & W & R & Cf & Tc & Tp & B & Cap). proj_simpl.
    assert (Hst : exists st,
      trace i' = trace i1 ++ st /\ Forall (fun e => flushEvent e = true) st /\
      writesOf st = [] /\ batch i' = [] /\
      retentionPolicy i' = retentionPolicy i1 /\ config i' = config i1 /\
      totalCommands i' = totalCommands i1 /\
      throttlePointsWritten i' = throttlePointsWritten i1).
    { destruct (Z.rem _ 100000 =? 0); injection H as <-; proj_simpl.
      - eexists. split; [reflexivity|]. split; [repeat constructor|].
        repeat split; reflexivity.
      - exists []. rewrite app_nil_r. repeat split; constructor. }
    destruct Hst as (st & T' & F' & W' & B' & R' & Cf' & Tc' & Tp').
    exists [batch i ++ [line]], (ext ++ st).
    split; [rewrite T', T, app_assoc; reflexivity|].
    split; [apply Forall_app; auto|].
    split; [rewrite writesOf_app, W, W'; reflexivity|].
    split; [rewrite B'; cbn; rewrite !app_nil_r; reflexivity|].
    split; [constructor; [|constructor]; rewrite length_app; cbn;
            unfold batchSize in Efull; lia|].
    split; [intros _; split; [congruence|]
           | split; [congruence|]; split; [congruence|];
             split; [intros _; rewrite Tp', Tp; lia | exact Inv']].
    rewrite writesOf_app, W, W'. repeat constructor.
  - injection H as <-. exists [], []. proj_simpl. rewrite !app_nil_r.
    split; [reflexivity|]. split; [constructor|]. split; [reflexivity|].
    split; [reflexivity|]. split; [constructor|].
    split; [intros _; split; [reflexivity | constructor]|].
    split; [reflexivity|]. split; [reflexivity|].
    split; [auto | exact Inv'].
Qed.

Lemma dmlLine_step : forall fuel dbo rpo start line i i',
  batchInv i ->
  dmlLine Clock WriteResult fuel dbo rpo start line i = Done i' ->
  phase2Step rpo i i' (if isDataLine line then [line] else []).
Proof.
  intros fuel dbo rpo start line i i' Hi H. unfold dmlLine in H.
  step_bind H i2 E2. step_bind H i3 E3.
  assert (H2 : trace i2 = trace i /\ batch i2 = batch i /\ batchCap i2 = batchCap i /\
               retentionPolicy i2 = retentionPolicy i /\ config i2 = config i /\
               totalCommands i2 = totalCommands i /\
               throttlePointsWritten i2 = throttlePointsWritten i).
  { destruct (String.eqb dbo "" && _).
    - destruct (contextValue line); cbn in E2; inversion E2; subst; proj_simpl;
        repeat split.
    - injection E2 as <-. repeat split. }
  assert (H3 : trace i3 = trace i2 /\ batch i3 = batch i2 /\ batchCap i3 = batchCap i2 /\
               (rpo <> "" -> retentionPolicy i3 = retentionPolicy i2) /\
               config i3 = config i2 /\ totalCommands i3 = totalCommands i2 /\
               throttlePointsWritten i3 = throttlePointsWritten i2).
  { clear -E3. destruct (String.eqb rpo "") eqn:Er; cbn [andb] in E3.
    - apply String.eqb_eq in Er.
      destruct (HasPrefix line "# CONTEXT-RETENTION-POLICY:").
      + destruct (contextValue line); cbn in E3; inversion E3; subst; proj_simpl;
          repeat split; intros Hc; exfalso; exact (Hc eq_refl).
      + injection E3 as <-. repeat split.
    - injection E3 as <-. repeat split. }
  destruct H2 as (T2 & B2 & Cp2 & R2 & Cf2 & Tc2 & Tp2).
  destruct H3 as (T3 & B3 & Cp3 & R3 & Cf3 & Tc3 & Tp3).
  assert (Hi3 : batchInv i3) by (unfold batchInv in *; rewrite B3, B2, Cp3, Cp2; exact Hi).
  assert (S3 : phase2Step rpo i i3 []).
  { exists [], []. rewrite !app_nil_r.
    split; [congruence|]. split; [constructor|]. split; [reflexivity|].
    split; [cbn; congruence|]. split; [constructor|].
    split; [intros Hr; split; [rewrite R3, R2; auto | constructor]|].
    split; [congruence|]. split; [congruence|].
    split; [intros; rewrite Tp3, Tp2; assumption | exact Hi3]. }
  unfold isDataLine.
  destruct (HasPrefix line "#"); cbn [negb andb]; [injection H as <-; exact S3|].
  destruct (String.eqb (TrimSpace line) ""); cbn [negb];
    [injection H as <-; exact S3|].
  change [line] with ([] ++ [line]).
  apply (phase2Step_trans _ _ i3); [exact S3|].
  exact (batchAccumulator_step _ _ _ _ _ _ Hi3 H).
Qed.

Lemma dmlLoop_step : forall fuel dbo rpo start lines i i',
  batchInv i ->
  dmlLoop Clock WriteResult fuel dbo rpo start lines i = Done i' ->
  phase2Step rpo i i' (filter isDataLine lines).
Proof.
  induction lines as [|line rest IH]; intros i i' Hi H; cbn [dmlLoop] in H.
  - injection H as <-. apply phase2Step_refl, Hi.
  - step_bind H i1 E1.
    pose proof (dmlLine_step _ _ _ _ _ _ _ Hi E1) as S1.
    assert (Hi1 : batchInv i1)
      by (destruct S1 as (_ & _ & _ & _ & _ & _ & _ & _ & _ & _ & _ & I1); exact I1).
    pose proof (IH _ _ Hi1 H) as S2.
    replace (filter isDataLine (line :: rest)) with
      ((if isDataLine line then [line] else []) ++ filter isDataLine rest)
      by (cbn; destruct (isDataLine line); reflexivity).
    exact (phase2Step_trans _ _ _ _ _ _ S1 S2).
Qed.

(** [processDML]: the one schema query, then phase 2 on the lines, then
    the final flush. *)
Lemma processDML_shape : forall fuel lines dbo rpo i i1,
  batchInv i ->
  processDML Clock WriteResult QueryResult fuel lines dbo rpo i = Done i1 ->
  exists i2 i3 qerr,
    trace i2 = trace i ++
      EvQuery (if String.eqb dbo "" then createDatabaseQuery i
               else String.append "CREATE DATABASE " dbo)
              (if String.eqb dbo "" then database i else dbo) :: qerr /\
    Forall (fun e => flushEvent e = true) qerr /\ writesOf qerr = [] /\
    totalCommands i2 = totalCommands i + 1 /\
    (rpo <> "" -> retentionPolicy i2 = rpo) /\
    config i2 = config i /\ batch i2 = batch i /\
    throttlePointsWritten i2 = throttlePointsWritten i /\
    phase2Step rpo i2 i3 (filter isDataLine lines) /\
    batchWrite Clock WriteResult fuel i3 = Done i1.
Proof.
  intros fuel lines dbo rpo i i1 Hinv H.
  unfold processDML, queryExecutor, execute in H. cbn [now] in H.
  step_bind H i3 E3.
  match type of E3 with context [dmlLoop _ _ _ _ _ _ _ ?s] =>
    assert (Hs : batchInv s) by
      (unfold batchInv in *;
       destruct (String.eqb dbo ""), (String.eqb rpo ""), (QueryResult _ _);
       cbn [negb] in *; proj_simpl; exact Hinv);
    pose proof (dmlLoop_step _ _ _ _ _ _ _ Hs E3) as S3;
    exists s, i3 end.
  destruct (String.eqb dbo "") eqn:Ed, (String.eqb rpo "") eqn:Er; cbn [negb] in *;
    destruct (QueryResult _ _); proj_simpl;
    (eexists; split; [rewrite <- ?app_assoc; reflexivity|]);
    (split; [repeat constructor|]); (split; [reflexivity|]);
    (split; [reflexivity|]);
    (split; [ try (apply String.eqb_eq in Er; intros Hc; contradiction);
              intros _; reflexivity |]);
    repeat split; assumption.
Qed.

(** [batchWrite] on a negative limit: the rate, never negative, always
    exceeds it, so every attempt waits and retries. *)
Lemma batchWrite_negative_pps : forall fuel i,
  PPS (config i) < 0 -> 0 <= throttlePointsWritten i ->
  batchWrite Clock WriteResult fuel i = OutOfFuel.
Proof.
  induction fuel as [|fuel IH]; intros i Hp Ht; [reflexivity|].
  cbn [batchWrite]. proj_simpl.
  replace ((PPS (config i) <? _) && negb (PPS (config i) =? 0)) with true.
  - apply IH; proj_simpl; [exact Hp | lia].
  - symmetry. apply andb_true_intro. split.
    + apply Z.ltb_lt. unfold currentPPS.
      destruct (0 <? _) eqn:Es.
      * apply Z.ltb_lt in Es.
        assert (0 <= Z.quot ((throttlePointsWritten i + Z.of_nat (length (batch i)))
                             * 1000000000) (Clock (clk i) - lastWrite i))
          by (apply Z.quot_pos; lia).
        lia.
      * lia.
    + apply negb_true_iff, Z.eqb_neq. lia.
Qed.

End Phase2.

(** Runs in which the transport rejects every write. *)
Section FailingWrites.

Variable Clock : nat -> Z.
Variable WriteResult : nat -> option string.
Variable QueryResult : string -> string -> option string.
Hypothesis all_fail : forall n, WriteResult n <> None.

Lemma batchWrite_no_inserts : forall fuel i i',
  batchWrite Clock WriteResult fuel i = Done i' -> totalInserts i' = totalInserts i.
Proof.
  intros fuel i i' H.
  destruct (batchWrite_spec Clock WriteResult _ _ _ H) as (m & _ & _ & _ & _ & _ & _ & _ &
    _ & _ & _ & _ & _ & Hc).
  destruct (WriteResult (nwrites i)) eqn:Ew; [injection Hc; auto|].
  exfalso. exact (all_fail _ Ew).
Qed.

Lemma batchAccumulator_no_inserts : forall fuel line start i i',
  batchAccumulator Clock WriteResult fuel line start i = Done i' ->
  totalInserts i' = totalInserts i.
Proof.
  intros fuel line start i i' H. unfold batchAccumulator, append_line in H.
  proj_simpl.
  destruct (Z.of_nat (length (batch i)) + 1 <=? batchCap i); proj_simpl;
  (destruct (_ =? batchSize);
   [ step_bind H i1 E1; apply batchWrite_no_inserts in E1; proj_simpl;
     destruct (Z.rem _ 100000 =? 0); injection H as <-; proj_simpl; exact E1
   | injection H as <-; reflexivity ]).
Qed.

Lemma dmlLoop_no_inserts : forall fuel dbo rpo start lines i i',
  dmlLoop Clock WriteResult fuel dbo rpo start lines i = Done i' ->
  totalInserts i' = totalInserts i.
Proof.
  induction lines as [|line rest IH]; intros i i' H; cbn [dmlLoop] in H.
  - injection H as <-. reflexivity.
  - step_bind H i1 E1. rewrite (IH _ _ H).
    unfold dmlLine in E1. step_bind E1 i2 E2. step_bind E1 i3 E3.
    transitivity (totalInserts i3).
    + destruct (HasPrefix line "#"); [injection E1 as <-; reflexivity|].
      destruct (String.eqb (TrimSpace line) ""); [injection E1 as <-; reflexivity|].
      exact (batchAccumulator_no_inserts _ _ _ _ _ E1).
    + clear E1. destruct (String.eqb rpo "" && _);
        [destruct (contextValue line); cbn in E3; inversion E3; subst; proj_simpl
        | injection E3 as <-];
      (destruct (String.eqb dbo "" && _);
        [destruct (contextValue line); cbn in E2; inversion E2; subst; proj_simpl
        | injection E2 as <-]); reflexivity.
Qed.

Lemma processDML_no_inserts : forall fuel lines dbo rpo i i',
  processDML Clock WriteResult QueryResult fuel lines dbo rpo i = Done i' ->
  totalInserts i' = totalInserts i.
Proof.
  intros fuel lines dbo rpo i i' H. unfold processDML, queryExecutor, execute in H.
  cbn [now] in H. step_bind H i1 E1.
  rewrite (batchWrite_no_inserts _ _ _ H), (dmlLoop_no_inserts _ _ _ _ _ _ _ E1).
  destruct (String.eqb dbo ""), (String.eqb rpo ""), (QueryResult _ _);
    cbn [negb]; proj_simpl; reflexivity.
Qed.

End FailingWrites.

Lemma concat_full_nil : forall done : list (list string),
  Forall (fun b => length b = 5000%nat) done -> concat done = [] -> done = [].
Proof.
  intros [|b done] Hf Hc; [reflexivity|].
  inversion Hf as [|? ? Hb _]; subst. cbn in Hc.
  apply app_eq_nil in Hc. destruct Hc as [-> _]. discriminate.
Qed.

Section RunShape.

Variable Clock : nat -> Z.
Variable WriteResult : nat -> option string.
Variable QueryResult : string -> string -> option string.

(** A run whose setup succeeds: the schema query, then flush effects
    only, whose writes carry the data lines of phase 2 in order, in full
    batches followed by the last partial one. *)
Lemma Import_shape : forall fuel cfg env i' r,
  setupOk cfg env ->
  Import Clock WriteResult QueryResult fuel env (NewImporter cfg) = Done (i', r) ->
  exists i1 ext done lastb,
    i' = summary i1 /\
    trace i1 = EvQuery (createQuery cfg env) (DestinationDatabase cfg) :: ext /\
    Forall (fun e => flushEvent e = true) ext /\
    map writeBody (writesOf ext) = map (fun b => Join b "
") (done ++ [lastb]) /\
    concat done ++ lastb = filter isDataLine (phase2 (input env)) /\
    Forall (fun b => length b = 5000%nat) done /\ (length lastb < 5000)%nat /\
    totalCommands i1 = 1 /\
    (RetentionPolicy cfg <> "" ->
       Forall (fun e => writeRp e = RetentionPolicy cfg) (writesOf ext)) /\
    config i1 = cfg /\
    throttlePointsWritten i1 = 0 /\
    processDML Clock WriteResult QueryResult fuel (phase2 (input env))
      (DestinationDatabase cfg) (RetentionPolicy cfg)
      (set_lastWrite (Clock 0) (set_clk 1
         (set_createDatabaseQuery (fst (processDDL (input env) ""))
            (NewImporter cfg)))) = Done i1.
Proof.
  intros fuel cfg env i' r Hs H.
  destruct (Import_run _ _ _ _ _ _ _ _ Hs H) as (i1 & E1 & -> & _).
  exists i1.
  pose proof E1 as E1'.
  apply processDML_shape in E1;
    [| unfold batchInv; cbn; split; reflexivity].
  destruct E1 as (i2 & i3 & qerr & T2 & Fq & Wq & Tc2 & R2 & Cf2 & B2 & Tp2 & S & Ew).
  destruct S as (done & ext & T3 & F3 & W3 & C3 & L3 & R3 & Cf3 & Tc3 & Tp3 & I3).
  apply batchWrite_ext in Ew.
  destruct Ew as (ext2 & Tw & Fw & Ww & Rw & Cfw & Tcw & Tpw & Bw & Capw).
  proj_simpl.
  cbn [NewImporter database trace batch totalCommands config
       throttlePointsWritten createDatabaseQuery] in *.
  exists (qerr ++ ext ++ ext2), done, (batch i3).
  split; [reflexivity|].
  split.
  { rewrite Tw, T3, T2. cbn [app]. rewrite <- !app_assoc. unfold createQuery.
    destruct (String.eqb (DestinationDatabase cfg) "") eqn:Ed;
      [apply String.eqb_eq in Ed; rewrite Ed|]; reflexivity. }
  split; [apply Forall_app; split; [exact Fq | apply Forall_app; auto]|].
  split.
  { rewrite !writesOf_app, Wq, Ww, !map_app, W3. reflexivity. }
  split; [rewrite C3, B2; reflexivity|].
  split; [exact L3|].
  split; [destruct I3 as [I3 _]; unfold batchSize in I3; lia|].
  split; [rewrite Tcw, Tc3, Tc2; reflexivity|].
  split.
  { intros Hr. destruct (R3 Hr) as [R3a R3b]. rewrite (R2 Hr) in R3b.
    rewrite !writesOf_app, Wq, Ww. cbn [app].
    apply Forall_app. split; [exact R3b|].
    constructor; [cbn; rewrite R3a; exact (R2 Hr) | constructor]. }
  split; [rewrite Cfw, Cf3, Cf2; reflexivity|].
  split; [exact Tpw | exact E1'].
Qed.

End RunShape.

Lemma trace_summary : forall i,
  trace (summary i) = trace i ++
    (if 0 <? totalInserts i
     then [EvSummary (totalCommands i) (totalInserts i) (failedInserts i)] else []).
Proof.
  intros i. unfold summary. destruct (0 <? totalInserts i); proj_simpl;
    [reflexivity | rewrite app_nil_r; reflexivity].
Qed.

Lemma counters_summary : forall i,
  totalInserts (summary i) = totalInserts i /\
  failedInserts (summary i) = failedInserts i /\
  totalCommands (summary i) = totalCommands i.
Proof.
  intros i. unfold summary. destruct (0 <? totalInserts i); proj_simpl; auto.
Qed.

Lemma writesOf_run : forall i1 q db ext,
  trace i1 = EvQuery q db :: ext ->
  writesOf (trace (summary i1)) = writesOf ext.
Proof.
  intros i1 q db ext T. rewrite trace_summary, T, writesOf_app.
  destruct (0 <? totalInserts i1); cbn; rewrite app_nil_r; reflexivity.
Qed.

(** ** Further properties of the importer *)

(** X1: in a run whose setup succeeds, the bodies written are the data
    lines of phase 2 in input order: a sequence of full batches of 5000
    lines, then one last write holding the fewer than 5000 lines left. *)
Theorem run_writes_data_in_order :
  forall Clock WriteResult QueryResult fuel cfg env i' r,
  setupOk cfg env ->
  Import Clock WriteResult QueryResult fuel env (NewImporter cfg) = Done (i', r) ->
  exists done lastb,
    map writeBody (writesOf (trace i')) = map (fun b => Join b "
") (done ++ [lastb]) /\
    concat done ++ lastb = filter isDataLine (phase2 (input env)) /\
    Forall (fun b => length b = 5000%nat) done /\ (length lastb < 5000)%nat.
Proof.
  intros Clock WriteResult QueryResult fuel cfg env i' r Hs H.
  destruct (Import_shape _ _ _ _ _ _ _ _ Hs H)
    as (i1 & ext & done & lastb & -> & T & _ & W & C & L & Ll & _).
  exists done, lastb. rewrite (writesOf_run _ _ _ _ T). auto.
Qed.

(** The run on [bigDump] terminates normally. *)
Lemma bigDump_run_done :
  match Import clock1s writesOk queriesOk 10 (env0 bigDump) (NewImporter cfg0) with
  | Done _ => true
  | _ => false
  end = true.
Proof. vm_compute. reflexivity. Qed.

Lemma run_writes_data_in_order_witness :
  exists i' r,
  setupOk cfg0 (env0 bigDump) /\
  Z.of_nat (length (filter isDataLine (phase2 (input (env0 bigDump))))) = 5001 /\
  Import clock1s writesOk queriesOk 10 (env0 bigDump)
    (NewImporter cfg0) = Done (i', r) /\
  exists done lastb,
    map writeBody (writesOf (trace i')) = map (fun b => Join b "
") (done ++ [lastb]) /\
    concat done ++ lastb
      = filter isDataLine (phase2 (input (env0 bigDump))) /\
    Forall (fun b => length b = 5000%nat) done /\ (length lastb < 5000)%nat.
Proof.
  assert (Hs : setupOk cfg0 (env0 bigDump))
    by (repeat split; cbn; discriminate).
  assert (Hn : Z.of_nat (length (filter isDataLine (phase2 (input (env0 bigDump)))))
               = 5001) by (vm_compute; reflexivity).
  destruct (Import clock1s writesOk queriesOk 10 (env0 bigDump)
              (NewImporter cfg0))
    as [[i' r]| |] eqn:E;
    [| pose proof bigDump_run_done as N; rewrite E in N; discriminate N..].
  exists i', r. split; [exact Hs|]. split; [exact Hn|]. split; [reflexivity|].
  exact (run_writes_data_in_order _ _ _ _ _ _ _ _ Hs E).
Defined.

(** X2: with a retention-policy override, every write of the run goes to
    that retention policy, whatever context lines the dump holds. *)
Theorem run_rp_override :
  forall Clock WriteResult QueryResult fuel cfg env i' r,
  setupOk cfg env -> RetentionPolicy cfg <> "" ->
  Import Clock WriteResult QueryResult fuel env (NewImporter cfg) = Done (i', r) ->
  Forall (fun e => writeRp e = RetentionPolicy cfg) (writesOf (trace i')).
Proof.
  intros Clock WriteResult QueryResult fuel cfg env i' r Hs Hr H.
  destruct (Import_shape _ _ _ _ _ _ _ _ Hs H)
    as (i1 & ext & done & lastb & -> & T & _ & _ & _ & _ & _ & _ & R & _).
  rewrite (writesOf_run _ _ _ _ T). exact (R Hr).
Qed.

Lemma run_rp_override_witness :
  exists i' r,
  setupOk cfg_rp (env0 (sample ++ ["# CONTEXT-RETENTION-POLICY: other"; "m v=2 1"])) /\
  RetentionPolicy cfg_rp <> "" /\
  Import clock1s writesOk queriesOk 10
    (env0 (sample ++ ["# CONTEXT-RETENTION-POLICY: other"; "m v=2 1"]))
    (NewImporter cfg_rp) = Done (i', r) /\
  Forall (fun e => writeRp e = RetentionPolicy cfg_rp) (writesOf (trace i')).
Proof.
  assert (Hs : setupOk cfg_rp
                 (env0 (sample ++ ["# CONTEXT-RETENTION-POLICY: other"; "m v=2 1"])))
    by (repeat split; cbn; discriminate).
  assert (Hr : RetentionPolicy cfg_rp <> "") by (cbn; discriminate).
  destruct (Import clock1s writesOk queriesOk 10
              (env0 (sample ++ ["# CONTEXT-RETENTION-POLICY: other"; "m v=2 1"]))
              (NewImporter cfg_rp))
    as [[i' r]| |] eqn:E; [| vm_compute in E; discriminate..].
  exists i', r. split; [exact Hs|]. split; [exact Hr|]. split; [reflexivity|].
  exact (run_rp_override _ _ _ _ _ _ _ _ Hs Hr E).
Defined.

(** X3: a run whose setup succeeds issues exactly one query, first: the
    CREATE DATABASE of the override, or else the statement captured in
    phase 1, against the destination database. Only flush effects follow,
    and the summary is logged last, and only when some point was
    inserted. *)
Theorem run_trace_shape :
  forall Clock WriteResult QueryResult fuel cfg env i' r,
  setupOk cfg env ->
  Import Clock WriteResult QueryResult fuel env (NewImporter cfg) = Done (i', r) ->
  totalCommands i' = 1 /\
  exists ext,
    trace i' = EvQuery (createQuery cfg env) (DestinationDatabase cfg) ::
               ext ++ (if 0 <? totalInserts i'
                       then [EvSummary (totalCommands i') (totalInserts i')
                                       (failedInserts i')]
                       else []) /\
    Forall (fun e => flushEvent e = true) ext.
Proof.
  intros Clock WriteResult QueryResult fuel cfg env i' r Hs H.
  destruct (Import_shape _ _ _ _ _ _ _ _ Hs H)
    as (i1 & ext & done & lastb & -> & T & F & _ & _ & _ & _ & Tc & _).
  destruct (counters_summary i1) as (A & B & C).
  rewrite A, B, C, Tc. split; [reflexivity|].
  exists ext. split; [|exact F].
  rewrite trace_summary, T, Tc. reflexivity.
Qed.

Lemma run_trace_shape_witness :
  exists i' r,
  setupOk cfg_bar (env0 sample) /\
  Import clock1s writesOk queriesOk 10 (env0 sample) (NewImporter cfg_bar) = Done (i', r) /\
  totalCommands i' = 1 /\
  exists ext,
    trace i' = EvQuery (createQuery cfg_bar (env0 sample)) (DestinationDatabase cfg_bar) ::
               ext ++ (if 0 <? totalInserts i'
                       then [EvSummary (totalCommands i') (totalInserts i')
                                       (failedInserts i')]
                       else []) /\
    Forall (fun e => flushEvent e = true) ext.
Proof.
  assert (Hs : setupOk cfg_bar (env0 sample))
    by (repeat split; cbn; discriminate).
  destruct (Import clock1s writesOk queriesOk 10 (env0 sample) (NewImporter cfg_bar))
    as [[i' r]| |] eqn:E; [| vm_compute in E; discriminate..].
  exists i', r. split; [exact Hs|]. split; [reflexivity|].
  exact (run_trace_shape _ _ _ _ _ _ _ _ Hs E).
Defined.

(** X4: when phase 2 holds no data line (for instance a dump without a
    "# DML" marker), the run still makes exactly one write, of the empty
    body. *)
Theorem run_empty_final_write :
  forall Clock WriteResult QueryResult fuel cfg env i' r,
  setupOk cfg env ->
  filter isDataLine (phase2 (input env)) = [] ->
  Import Clock WriteResult QueryResult fuel env (NewImporter cfg) = Done (i', r) ->
  map writeBody (writesOf (trace i')) = [""].
Proof.
  intros Clock WriteResult QueryResult fuel cfg env i' r Hs Hd H.
  destruct (Import_shape _ _ _ _ _ _ _ _ Hs H)
    as (i1 & ext & done & lastb & -> & T & _ & W & C & L & _).
  rewrite Hd in C. apply app_eq_nil in C. destruct C as [C ->].
  rewrite (concat_full_nil _ L C) in W.
  rewrite (writesOf_run _ _ _ _ T), W. reflexivity.
Qed.

Lemma run_empty_final_write_witness :
  exists i' r,
  setupOk cfg0 (env0 ["# DDL"; "CREATE DATABASE foo"; "m v=1 0"]) /\
  filter isDataLine (phase2 (input (env0 ["# DDL"; "CREATE DATABASE foo"; "m v=1 0"])))
    = [] /\
  Import clock1s writesOk queriesOk 10 (env0 ["# DDL"; "CREATE DATABASE foo"; "m v=1 0"])
    (NewImporter cfg0) = Done (i', r) /\
  map writeBody (writesOf (trace i')) = [""].
Proof.
  assert (Hs : setupOk cfg0 (env0 ["# DDL"; "CREATE DATABASE foo"; "m v=1 0"]))
    by (repeat split; cbn; discriminate).
  assert (Hd : filter isDataLine
                 (phase2 (input (env0 ["# DDL"; "CREATE DATABASE foo"; "m v=1 0"])))
               = []) by reflexivity.
  destruct (Import clock1s writesOk queriesOk 10
              (env0 ["# DDL"; "CREATE DATABASE foo"; "m v=1 0"]) (NewImporter cfg0))
    as [[i' r]| |] eqn:E; [| vm_compute in E; discriminate..].
  exists i', r. split; [exact Hs|]. split; [exact Hd|]. split; [reflexivity|].
  exact (run_empty_final_write _ _ _ _ _ _ _ _ Hs Hd E).
Defined.

(** X5: when the transport rejects every write, nothing is counted as
    inserted, every data line of phase 2 is counted as failed, and no
    summary is logged. *)
Theorem run_all_writes_fail :
  forall Clock WriteResult QueryResult fuel cfg env i' r,
  (forall n, WriteResult n <> None) ->
  setupOk cfg env ->
  Import Clock WriteResult QueryResult fuel env (NewImporter cfg) = Done (i', r) ->
  totalInserts i' = 0 /\
  failedInserts i' = dataLines (phase2 (input env)) /\
  (forall a b c, ~ In (EvSummary a b c) (trace i')).
Proof.
  intros Clock WriteResult QueryResult fuel cfg env i' r Hf Hs H.
  destruct (Import_shape _ _ _ _ _ _ _ _ Hs H)
    as (i1 & ext & done & lastb & -> & T & F & _ & _ & _ & _ & _ & _ & _ & _ & E1).
  pose proof (processDML_no_inserts _ _ _ Hf _ _ _ _ _ _ E1) as Hi.
  apply processDML_pending in E1. rewrite pending_start in E1.
  cbn in Hi.
  assert (Hs1 : summary i1 = i1) by (unfold summary; rewrite Hi; reflexivity).
  rewrite Hs1. split; [exact Hi|]. split; [lia|].
  intros a b c Hin. rewrite T in Hin. destruct Hin as [Hq | Hin]; [discriminate|].
  rewrite Forall_forall in F. specialize (F _ Hin). discriminate.
Qed.

Lemma run_all_writes_fail_witness :
  exists i' r,
  (forall n, writesFail n <> None) /\
  setupOk cfg0 (env0 sample) /\
  Import clock1s writesFail queriesOk 10 (env0 sample) (NewImporter cfg0) = Done (i', r) /\
  totalInserts i' = 0 /\
  failedInserts i' = dataLines (phase2 (input (env0 sample))) /\
  (forall a b c, ~ In (EvSummary a b c) (trace i')).
Proof.
  assert (Hf : forall n, writesFail n <> None) by (intros n; discriminate).
  assert (Hs : setupOk cfg0 (env0 sample))
    by (repeat split; cbn; discriminate).
  destruct (Import clock1s writesFail queriesOk 10 (env0 sample) (NewImporter cfg0))
    as [[i' r]| |] eqn:E; [| vm_compute in E; discriminate..].
  exists i', r. split; [exact Hf|]. split; [exact Hs|]. split; [reflexivity|].
  exact (run_all_writes_fail _ _ _ _ _ _ _ _ Hf Hs E).
Defined.

(** X6: when a setup step fails (client creation, ping, missing path,
    opening the file or the gzip reader), [Import] returns an error and
    has issued no query and no write, logged nothing, and counted no
    command and no point. *)
Theorem Import_setup_failure :
  forall Clock WriteResult QueryResult fuel cfg env i' r,
  ~ setupOk cfg env ->
  Import Clock WriteResult QueryResult fuel env (NewImporter cfg) = Done (i', r) ->
  trace i' = [] /\ totalCommands i' = 0 /\ totalInserts i' = 0 /\
  failedInserts i' = 0 /\ r <> None.
Proof.
  intros Clock WriteResult QueryResult fuel cfg env i' r Hn H.
  unfold Import in H.
  destruct (clientErr env) eqn:Ec;
    [injection H as <- <-; cbn; repeat split; discriminate|].
  destruct (pingErr env) eqn:Ep;
    [injection H as <- <-; cbn; repeat split; discriminate|].
  cbn [config NewImporter] in H.
  destruct (String.eqb (Path cfg) "") eqn:Epath;
    [injection H as <- <-; cbn; repeat split; discriminate|].
  step_bind H x Ex. injection H as <- <-.
  unfold importBody in Ex. cbn [config NewImporter] in Ex.
  destruct (openErr env) eqn:Eo;
    [injection Ex as <-; cbn; repeat split; discriminate|].
  destruct (if Compressed cfg then gzipErr env else None) eqn:Eg;
    [injection Ex as <-; cbn; repeat split; discriminate|].
  exfalso. apply Hn. apply String.eqb_neq in Epath.
  repeat split; auto. intros Hc. rewrite Hc in Eg. exact Eg.
Qed.

Lemma Import_setup_failure_witness :
  exists i' r,
  ~ setupOk cfg0 (mkEnv None (Some "refused") "localhost:8086" None None sample None) /\
  Import clock1s writesOk queriesOk 10
    (mkEnv None (Some "refused") "localhost:8086" None None sample None)
    (NewImporter cfg0) = Done (i', r) /\
  trace i' = [] /\ totalCommands i' = 0 /\ totalInserts i' = 0 /\
  failedInserts i' = 0 /\ r <> None.
Proof.
  assert (Hn : ~ setupOk cfg0
                 (mkEnv None (Some "refused") "localhost:8086" None None sample None))
    by (intros (_ & Hp & _); discriminate).
  destruct (Import clock1s writesOk queriesOk 10
              (mkEnv None (Some "refused") "localhost:8086" None None sample None)
              (NewImporter cfg0))
    as [[i' r]| |] eqn:E; [| vm_compute in E; discriminate..].
  exists i', r. split; [exact Hn|]. split; [reflexivity|].
  exact (Import_setup_failure _ _ _ _ _ _ _ _ Hn E).
Defined.

(** X7: a scanner error ends the run with the error "reading standard
    input: " followed by the scanner's message, whatever the number of
    failed points. *)
Theorem Import_scan_error_reported :
  forall Clock WriteResult QueryResult fuel cfg env i' r e,
  setupOk cfg env -> scanErr env = Some e ->
  Import Clock WriteResult QueryResult fuel env (NewImporter cfg) = Done (i', r) ->
  r = Some (String.append "reading standard input: " e).
Proof.
  intros Clock WriteResult QueryResult fuel cfg env i' r e Hs He H.
  destruct (Import_run _ _ _ _ _ _ _ _ Hs H) as (i1 & _ & _ & ->).
  rewrite He. reflexivity.
Qed.

Lemma Import_scan_error_reported_witness :
  exists i' r,
  setupOk cfg0 (mkEnv None None "localhost:8086" None None sample (Some "EOF")) /\
  scanErr (mkEnv None None "localhost:8086" None None sample (Some "EOF")) = Some "EOF" /\
  Import clock1s writesFail queriesOk 10
    (mkEnv None None "localhost:8086" None None sample (Some "EOF"))
    (NewImporter cfg0) = Done (i', r) /\
  r = Some (String.append "reading standard input: " "EOF").
Proof.
  assert (Hs : setupOk cfg0 (mkEnv None None "localhost:8086" None None sample (Some "EOF")))
    by (repeat split; cbn; discriminate).
  assert (He : scanErr (mkEnv None None "localhost:8086" None None sample (Some "EOF"))
               = Some "EOF") by reflexivity.
  destruct (Import clock1s writesFail queriesOk 10
              (mkEnv None None "localhost:8086" None None sample (Some "EOF"))
              (NewImporter cfg0))
    as [[i' r]| |] eqn:E; [| vm_compute in E; discriminate..].
  exists i', r. split; [exact Hs|]. split; [exact He|]. split; [reflexivity|].
  exact (Import_scan_error_reported _ _ _ _ _ _ _ _ _ Hs He E).
Defined.

(** X8: with a negative points-per-second limit the rate check never
    passes, so a run whose setup succeeds never completes, whatever the
    clock and however much fuel it is given. *)
Theorem Import_negative_pps_never_done :
  forall Clock WriteResult QueryResult fuel cfg env i' r,
  setupOk cfg env -> PPS cfg < 0 ->
  Import Clock WriteResult QueryResult fuel env (NewImporter cfg) <> Done (i', r).
Proof.
  intros Clock WriteResult QueryResult fuel cfg env i' r Hs Hp H.
  destruct (Import_run _ _ _ _ _ _ _ _ Hs H) as (i1 & E1 & _).
  apply processDML_shape in E1;
    [| unfold batchInv; cbn; split; reflexivity].
  destruct E1 as (i2 & i3 & _ & _ & _ & _ & _ & _ & Cf2 & _ & Tp2 & S & Ew).
  destruct S as (_ & _ & _ & _ & _ & _ & _ & _ & Cf3 & _ & Tp3 & _).
  rewrite (batchWrite_negative_pps _ _ _ _) in Ew; [discriminate| |].
  - rewrite Cf3, Cf2. exact Hp.
  - apply Tp3. rewrite Tp2. cbn. lia.
Qed.

Lemma Import_negative_pps_never_done_witness :
  setupOk cfg_neg (env0 sample) /\ PPS cfg_neg < 0 /\
  forall i' r,
  Import clock1s writesOk queriesOk 10 (env0 sample) (NewImporter cfg_neg) <> Done (i', r).
Proof.
  assert (Hs : setupOk cfg_neg (env0 sample))
    by (repeat split; cbn; discriminate).
  assert (Hp : PPS cfg_neg < 0) by reflexivity.
  split; [exact Hs|]. split; [exact Hp|].
  intros i' r. exact (Import_negative_pps_never_done _ _ _ _ _ _ i' r Hs Hp).
Defined.

(** X9: phase 1 reads a dump prefix without a "# DML" line as a whole:
    scanning it then the rest is scanning the rest from the last statement
    of the prefix. *)
Theorem processDDL_app :
  forall pre rest q,
  Forall (fun l => HasPrefix l "# DML" = false) pre ->
  processDDL (pre ++ rest) q = processDDL rest (lastStatement pre q).
Proof.
  unfold lastStatement.
  induction pre as [|line pre IH]; intros rest q Hpre; [reflexivity|].
  inversion Hpre as [|? ? Hl Hpre']; subst.
  cbn [app processDDL filter]. rewrite Hl.
  unfold isDataLine at 1.
  destruct (HasPrefix line "#"); cbn [negb andb]; [apply IH; exact Hpre'|].
  destruct (String.eqb (TrimSpace line) ""); cbn [negb]; [apply IH; exact Hpre'|].
  rewrite last_cons_default. apply IH; exact Hpre'.
Qed.

Lemma processDDL_app_witness :
  Forall (fun l => HasPrefix l "# DML" = false) ["# DDL"; "CREATE DATABASE a"; " "] /\
  processDDL (["# DDL"; "CREATE DATABASE a"; " "] ++ ["CREATE DATABASE b"; "# DML"]) ""
  = processDDL ["CREATE DATABASE b"; "# DML"]
      (lastStatement ["# DDL"; "CREATE DATABASE a"; " "] "").
Proof.
  assert (Hp : Forall (fun l => HasPrefix l "# DML" = false)
                 ["# DDL"; "CREATE DATABASE a"; " "]) by (repeat constructor).
  split; [exact Hp|].
  exact (processDDL_app _ _ _ Hp).
Defined.

Lemma str_app_assoc : forall a b c,
  String.append (String.append a b) c = String.append a (String.append b c).
Proof. induction a as [|x a IH]; intros b c; cbn; [reflexivity | rewrite IH; reflexivity]. Qed.

Lemma str_app_nil_r : forall a, String.append a "" = a.
Proof. induction a as [|x a IH]; cbn; [reflexivity | rewrite IH; reflexivity]. Qed.

Lemma substring_0_long : forall r m,
  (String.length r <= m)%nat -> substring 0 m r = r.
Proof.
  induction r as [|x r IH]; intros m Hm; destruct m as [|m]; cbn in *;
    [reflexivity | reflexivity | lia | rewrite IH by lia; reflexivity].
Qed.

Lemma prefix_colon_other : forall c s,
  c <> ":"%char -> String.prefix ":" (String c s) = false.
Proof.
  intros c s Hc. cbn [String.prefix].
  destruct (ascii_dec ":" c) as [E|]; [exfalso; apply Hc; symmetry; exact E | reflexivity].
Qed.

(** Splitting on ":" a colon-free word followed by a colon. *)
Lemma splitAux_word : forall a r fuel cur,
  ~ In ":"%char (list_ascii_of_string a) -> (String.length a < fuel)%nat ->
  splitAux fuel ":" (String.append a (String ":" r)) cur
  = String.append cur a :: splitAux (fuel - String.length a - 1) ":" r "".
Proof.
  induction a as [|c a IH]; intros r fuel cur Hc Hf;
    (destruct fuel as [|f]; [cbn in Hf; lia|]).
  - cbn [String.append splitAux]. cbn [String.prefix].
    destruct (ascii_dec ":" ":") as [_|n]; [|contradiction n; reflexivity].
    rewrite prefix_empty.
    change (substring (String.length ":") (String.length (String ":" r)) (String ":" r))
      with (substring 0 (S (String.length r)) r).
    rewrite substring_0_long, str_app_nil_r by lia.
    replace (S f - String.length "" - 1)%nat with f by (cbn; lia). reflexivity.
  - cbn [String.append splitAux].
    rewrite prefix_colon_other by (intros E; apply Hc; left; exact E).
    rewrite IH by (cbn in Hc, Hf; tauto || lia).
    rewrite str_app_assoc. cbn [String.append String.length].
    replace (S f - S (String.length a) - 1)%nat with (f - String.length a - 1)%nat
      by lia.
    reflexivity.
Qed.

(** Splitting on ":" a colon-free word. *)
Lemma splitAux_last : forall a fuel cur,
  ~ In ":"%char (list_ascii_of_string a) -> (String.length a < fuel)%nat ->
  splitAux fuel ":" a cur = [String.append cur a].
Proof.
  induction a as [|c a IH]; intros fuel cur Hc Hf;
    (destruct fuel as [|f]; [cbn in Hf; lia|]).
  - cbn. rewrite str_app_nil_r. reflexivity.
  - cbn [splitAux].
    rewrite prefix_colon_other by (intros E; apply Hc; left; exact E).
    rewrite IH by (cbn in Hc, Hf; tauto || lia).
    rewrite str_app_assoc. reflexivity.
Qed.

(** The value of a context line [p:w...] is the trimmed word [w] that
    follows the first colon, up to the next colon or the end. *)
Lemma contextValue_word : forall p w tail,
  ~ In ":"%char (list_ascii_of_string p) ->
  ~ In ":"%char (list_ascii_of_string w) ->
  (tail = "" \/ exists t, tail = String ":" t) ->
  contextValue (String.append p (String ":" (String.append w tail))) = Done (TrimSpace w).
Proof.
  intros p w tail Hp Hw Ht. unfold contextValue, Split.
  rewrite splitAux_word by
    (auto; rewrite String_length_append; cbn [String.length]; lia).
  destruct Ht as [-> | [t ->]].
  - rewrite str_app_nil_r, splitAux_last; [reflexivity | exact Hw|].
    rewrite ?String_length_append; cbn [String.length].
    rewrite ?String_length_append; cbn [String.length]. lia.
  - rewrite splitAux_word; [reflexivity | exact Hw|].
    rewrite ?String_length_append; cbn [String.length].
    rewrite ?String_length_append; cbn [String.length]. lia.
Qed.

(** X10: without a retention-policy override, a line
    "# CONTEXT-RETENTION-POLICY:" followed by a colon-free word [w] and
    then the end of the line or another colon sets the retention policy
    to [w] with surrounding white space trimmed; the line itself is not
    batched. *)
Theorem context_rp_to_next_colon :
  forall Clock WriteResult fuel dbo start w tail i,
  ~ In ":"%char (list_ascii_of_string w) ->
  (tail = "" \/ exists t, tail = String ":" t) ->
  dmlLine Clock WriteResult fuel dbo "" start
    (String.append "# CONTEXT-RETENTION-POLICY:" (String.append w tail)) i
  = Done (set_retentionPolicy (TrimSpace w) i).
Proof.
  intros Clock WriteResult fuel dbo start w tail i Hw Ht.
  unfold dmlLine, HasPrefix.
  replace (String.prefix "# CONTEXT-DATABASE:"
             (String.append "# CONTEXT-RETENTION-POLICY:" (String.append w tail)))
    with false by reflexivity.
  rewrite andb_false_r. cbn [bind].
  replace (String.prefix "# CONTEXT-RETENTION-POLICY:"
             (String.append "# CONTEXT-RETENTION-POLICY:" (String.append w tail)))
    with true by (cbn; symmetry; apply prefix_empty).
  change (String.append "# CONTEXT-RETENTION-POLICY:" (String.append w tail))
    with (String.append "# CONTEXT-RETENTION-POLICY" (String ":" (String.append w tail))).
  rewrite contextValue_word; [| cbn; intuition discriminate | exact Hw | exact Ht].
  reflexivity.
Qed.

Lemma context_rp_to_next_colon_witness :
  ~ In ":"%char (list_ascii_of_string " autogen ") /\
  ("" = "" \/ exists t, "" = String ":" t) /\
  dmlLine clock1s writesOk 10 "" "" 0
    (String.append "# CONTEXT-RETENTION-POLICY:" (String.append " autogen " ""))
    (NewImporter cfg0)
  = Done (set_retentionPolicy (TrimSpace " autogen ") (NewImporter cfg0)).
Proof.
  assert (Hw : ~ In ":"%char (list_ascii_of_string " autogen "))
    by (cbn; intuition discriminate).
  assert (Ht : ("" = "" \/ exists t, "" = String ":" t)) by (left; reflexivity).
  split; [exact Hw|]. split; [exact Ht|].
  exact (context_rp_to_next_colon _ _ _ _ _ _ _ _ Hw Ht).
Defined.
